(** * GRH-BOT: the client-side assessment session protocol

    A shallow embedding of the two chat widgets of the frontend and of the
    modal quiz:

    - [src/frontend/src/App.jsx], second [ChatbotWidget] (lines 422-1119):
      the chat-driven assessment (mindset questions, domain selection,
      domain test, evaluation);
    - [src/frontend/src/PsychometricQuiz.jsx]: the modal quiz of the older
      widget ([startQuiz], [submitAnswer]).

    React state is modelled by explicit state passing: a handler is a
    function from the state its closure was rendered with to the state after
    its [set...] calls, together with the network requests it issued.  An
    [async] handler is cut at its [await fetch(...)]: the part before it runs
    inside the event, the part after it is a pending continuation that keeps
    the values its closure captured, and is run when the response arrives.
    A [setTimeout] callback is a pending continuation as well; delays are
    not measured, a pending continuation may run at any later event.

    What is left out: time stamps of messages, the rendering (a message is
    kept as the template it was built from), and the unmounting of the modal
    quiz.  In the chat-driven assessment a response body that parses is
    taken to have the shape of its endpoint (an array of questions with an
    [id] each, an array of domain names); the modal quiz reads bodies of any
    JSON shape. *)

From stdpp Require Import gmap strings list fin_maps.
From Stdlib Require Import ZArith NArith Lia.

Local Open Scope Z_scope.

(** ** JavaScript strings *)

(** A JS string is a sequence of UTF-16 code units. *)
Definition jsstring := list N.

(** The code units of an ASCII literal. *)
Definition str (s : string) : jsstring :=
  List.map Ascii.N_of_ascii (String.list_ascii_of_string s).

Definition unit_eqb (a b : N) : bool := N.eqb a b.

Fixpoint jsstring_eqb (a b : jsstring) : bool :=
  match a, b with
  | [], [] => true
  | x :: a', y :: b' => unit_eqb x y && jsstring_eqb a' b'
  | _, _ => false
  end.

(** [b] is a prefix of [a]. *)
Fixpoint startsWith (a b : jsstring) : bool :=
  match b, a with
  | [], _ => true
  | y :: b', x :: a' => unit_eqb x y && startsWith a' b'
  | _ :: _, [] => false
  end.

(** [String.prototype.includes]: [b] occurs in [a] as a run of consecutive
    code units (the empty string occurs in every string). *)
Fixpoint includes (a b : jsstring) : bool :=
  startsWith a b ||
  match a with
  | [] => false
  | _ :: a' => includes a' b
  end.

(** ECMAScript's WhiteSpace and LineTerminator code points, the ones
    [String.prototype.trim] strips and [parseInt] skips: TAB, LF, VT, FF, CR,
    SPACE, NBSP, U+1680, U+2000-U+200A, U+2028, U+2029, U+202F, U+205F,
    U+3000 and U+FEFF. *)
Definition isWhiteSpace (c : N) : bool :=
  ((9 <=? c) && (c <=? 13) || (c =? 32) || (c =? 160) || (c =? 5760)
   || (8192 <=? c) && (c <=? 8202) || (c =? 8232) || (c =? 8233)
   || (c =? 8239) || (c =? 8287) || (c =? 12288) || (c =? 65279))%N.

Fixpoint dropWhile {A} (p : A -> bool) (l : list A) : list A :=
  match l with
  | [] => []
  | x :: l' => if p x then dropWhile p l' else l
  end.

Fixpoint takeWhile {A} (p : A -> bool) (l : list A) : list A :=
  match l with
  | [] => []
  | x :: l' => if p x then x :: takeWhile p l' else []
  end.

(** [String.prototype.trim]. *)
Definition trim (s : jsstring) : jsstring :=
  rev (dropWhile isWhiteSpace (rev (dropWhile isWhiteSpace s))).

(** The test [!s] on a string: the empty string is the only falsy one. *)
Definition emptyString (s : jsstring) : bool :=
  match s with [] => true | _ :: _ => false end.

(** The value of a code unit as a digit of the given radix (10 or 16). *)
Definition digitValue (radix : Z) (c : N) : option Z :=
  let v :=
    if ((48 <=? c) && (c <=? 57))%N then Some (Z.of_N c - 48)
    else if ((97 <=? c) && (c <=? 102))%N then Some (Z.of_N c - 87)
    else if ((65 <=? c) && (c <=? 70))%N then Some (Z.of_N c - 55)
    else None in
  match v with
  | Some d => if d <? radix then Some d else None
  | None => None
  end.

Definition isDigit (radix : Z) (c : N) : bool :=
  match digitValue radix c with Some _ => true | None => false end.

Definition digitsValue (radix : Z) (ds : jsstring) : Z :=
  fold_left (fun acc c => acc * radix + default 0 (digitValue radix c)) ds 0.

(** [parseInt(input)] with no radix argument (ECMAScript 19.2.5): leading
    white space is skipped, one sign is read, a [0x]/[0X] prefix selects
    radix 16, and the longest run of digits is the number; whatever follows
    it is ignored.  [None] is [NaN].  The value is kept exact: the rounding
    to a double is monotone and leaves the integers 1..5 as they are, so the
    comparisons of [handleDomainSelection] read the same. *)
Definition parseInt (input : jsstring) : option Z :=
  let s := dropWhile isWhiteSpace input in
  let '(sign, s1) :=
    match s with
    | c :: rest =>
        if (c =? 45)%N then (-1, rest)
        else if (c =? 43)%N then (1, rest)
        else (1, s)
    | [] => (1, s)
    end in
  let '(radix, s2) :=
    match s1 with
    | c0 :: cx :: rest =>
        if ((c0 =? 48) && ((cx =? 120) || (cx =? 88)))%N then (16, rest)
        else (10, s1)
    | _ => (10, s1)
    end in
  match takeWhile (isDigit radix) s2 with
  | [] => None
  | ds => Some (sign * digitsValue radix ds)
  end.

(** The case maps of ASCII.  [String.prototype.toLowerCase] and
    [toUpperCase] follow the Unicode tables; on a string of ASCII code units
    they are these two maps.  The handlers below take the case maps as
    parameters, and the concrete runs instantiate them with these. *)
Definition asciiLowerUnit (c : N) : N :=
  if ((65 <=? c) && (c <=? 90))%N then (c + 32)%N else c.
Definition asciiUpperUnit (c : N) : N :=
  if ((97 <=? c) && (c <=? 122))%N then (c - 32)%N else c.
Definition asciiLower (s : jsstring) : jsstring := List.map asciiLowerUnit s.
Definition asciiUpper (s : jsstring) : jsstring := List.map asciiUpperUnit s.

(** ** The chat-driven assessment ([App.jsx], second [ChatbotWidget]) *)

Module Assessment.

(** The values of [assessmentState.phase] besides [null]:
    ['mindset'], ['domain-selection'], ['domain-test']. *)
Inductive Phase := Mindset | DomainSelection | DomainTest.

(** A question as the backend sends it.  [id] is the property key the
    answer is stored under. *)
Record Question := {
  id : jsstring;
  question : jsstring;
  options : option (list (jsstring * jsstring))
}.

(** [assessmentState] (lines 438-447).  A JS object used as a map from
    question id to answer is a [gmap]. *)
Record AssessmentState := {
  active : bool;
  phase : option Phase;
  currentQuestion : nat;
  questions : list Question;
  answers : gmap jsstring jsstring;
  selectedDomain : option jsstring;
  mindsetAnswers : gmap jsstring jsstring;
  domainAnswers : gmap jsstring jsstring
}.

(** The object literal of lines 438-447, 781-790 and 864-873. *)
Definition initialAssessmentState : AssessmentState :=
  {| active := false; phase := None; currentQuestion := 0%nat;
     questions := []; answers := ∅; selectedDomain := None;
     mindsetAnswers := ∅; domainAnswers := ∅ |}.

(** Response bodies, by endpoint.  The body of [/api/assessment/start]
    and of [/api/assessment/domain-questions]: [questions] is taken to be an
    array of questions, [total_questions] is only shown. *)
Record QuestionsData := {
  data_questions : list Question;
  data_total_questions : Z
}.

(** The body of [/api/assessment/domains].  A body whose [domains] has no
    [map] makes line 607 throw inside the [try] block: that is the outcome
    [Failed] below. *)
Record DomainsData := {
  data_domains : list jsstring;
  data_message : jsstring
}.

(** The body of [/api/assessment/evaluate].  A body whose [strengths] or
    [areas_to_develop] is missing makes line 764 throw inside the [try]
    block: that is the outcome [Failed] below. *)
Record EvalResult := {
  fit_level : jsstring;
  research_aptitude_score : Z;
  research_aptitude_percentage : Z;
  domain_fit_score : Z;
  domain_fit_percentage : Z;
  overall_assessment : jsstring;
  strengths : list jsstring;
  areas_to_develop : list jsstring;
  domain_specific_feedback : jsstring;
  recommendation : jsstring
}.

(** The response of [/api/ask]: [res.ok] (line 825) and [data.answer]
    ([None] when the body has none). *)
Record AskData := {
  ok : bool;
  answer : option jsstring
}.

(** How the [await]s of a [try] block end: [Failed] when [fetch] or
    [res.json()] rejects, so that the [catch] block runs; [Parsed data] when
    the body parsed.  The assessment handlers never read the HTTP status. *)
Inductive Fetched (A : Type) :=
| Failed
| Parsed (data : A).
Arguments Failed {A}.
Arguments Parsed {A} data.

(** The text of a chat message, one constructor per string or template of
    the source (time stamps are left out). *)
Inductive MsgText :=
| TGreeting                                   (* line 431 *)
| TClearGreeting                              (* line 860 *)
| TStartEvaluation                            (* line 486 *)
| TIntro (total : Z)                          (* line 508 *)
| TLoadError                                  (* line 521 *)
| TQuestion (index total : nat) (q : Question) (* line 543 *)
| TText (s : jsstring)                        (* a string shown as it is *)
| TPhase1Complete                             (* line 596 *)
| TDomains (d : DomainsData)                  (* line 607 *)
| TDomainsError                               (* line 616 *)
| TReprompt                                   (* line 643 *)
| TPhase3 (domain : jsstring) (total : Z)     (* line 679 *)
| TDomainQuestionsError                       (* line 692 *)
| TProcessing                                 (* line 744 *)
| TResults (domain : option jsstring) (result : EvalResult) (* line 764 *)
| TEvalError                                  (* line 773 *)
| TNoAnswer                                   (* line 832 *)
| TAskError.                                  (* line 840 *)

Inductive Sender := bot | user.

Record Message := { type : Sender; text : MsgText }.

(** The network requests a handler issues. *)
Inductive Request :=
| ReqStart                                    (* GET /api/assessment/start *)
| ReqDomains                                  (* GET /api/assessment/domains *)
| ReqDomainQuestions (domain : jsstring)      (* POST /api/assessment/domain-questions *)
| ReqEvaluate (mindset_answers : gmap jsstring jsstring)
              (domain : option jsstring)
              (domain_answers : gmap jsstring jsstring)
                                              (* POST /api/assessment/evaluate *)
| ReqAsk (q : jsstring).                      (* POST /api/ask *)

(** What is waiting to run: the rest of an [async] handler behind its
    [await fetch], with the values its closure holds, or a [setTimeout]
    callback. *)
Inductive Pending :=
| PStart
| PDomains
| PDomainQuestions (captured : AssessmentState) (selected : jsstring)
| PEvaluate (captured : AssessmentState)
| PAsk
| TimerAskQuestion (qs : list Question) (index : nat)
| TimerShowDomainSelection.

(** The component's state (lines 427-447) and the continuations in flight. *)
Record Widget := {
  open : bool;
  messages : list Message;
  input : jsstring;
  loading : bool;
  assessmentState : AssessmentState;
  pending : list Pending
}.

Definition initialWidget : Widget :=
  {| open := false;
     messages := [ {| type := bot; text := TGreeting |} ];
     input := [];
     loading := false;
     assessmentState := initialAssessmentState;
     pending := [] |}.

Definition setOpen (b : bool) (w : Widget) : Widget :=
  {| open := b; messages := messages w; input := input w;
     loading := loading w; assessmentState := assessmentState w;
     pending := pending w |}.
Definition setMessages (ms : list Message) (w : Widget) : Widget :=
  {| open := open w; messages := ms; input := input w;
     loading := loading w; assessmentState := assessmentState w;
     pending := pending w |}.
Definition setInput (s : jsstring) (w : Widget) : Widget :=
  {| open := open w; messages := messages w; input := s;
     loading := loading w; assessmentState := assessmentState w;
     pending := pending w |}.
Definition setLoading (b : bool) (w : Widget) : Widget :=
  {| open := open w; messages := messages w; input := input w;
     loading := b; assessmentState := assessmentState w;
     pending := pending w |}.
Definition setAssessmentState (st : AssessmentState) (w : Widget) : Widget :=
  {| open := open w; messages := messages w; input := input w;
     loading := loading w; assessmentState := st;
     pending := pending w |}.
Definition setPending (ps : list Pending) (w : Widget) : Widget :=
  {| open := open w; messages := messages w; input := input w;
     loading := loading w; assessmentState := assessmentState w;
     pending := ps |}.

(** [setMessages(prev => [...prev, msg])]. *)
Definition addMessage (who : Sender) (t : MsgText) (w : Widget) : Widget :=
  setMessages (messages w ++ [ {| type := who; text := t |} ]) w.

(** A continuation or timer is registered. *)
Definition await (p : Pending) (w : Widget) : Widget :=
  setPending (pending w ++ [p]) w.

(** The list of line 626. *)
Definition domains : list jsstring :=
  [ str "Computer Science"; str "Biology"; str "Physics";
    str "Chemistry"; str "Social Sciences" ].

Section Handlers.

(** [String.prototype.toLowerCase] and [toUpperCase]. *)
Variable toLowerCase toUpperCase : jsstring -> jsstring.

(** The callback of [domains.find] (lines 634-637). *)
Definition matchesDomain (input d : jsstring) : bool :=
  includes (toLowerCase d) (toLowerCase input)
  || includes (toLowerCase input) (toLowerCase d).

(** Lines 628-638 of [handleDomainSelection]: the value of the local
    [selectedDomain] ([None] is [undefined]). *)
Definition resolveDomain (input : jsstring) : option jsstring :=
  match parseInt input with
  | Some num =>
      if (1 <=? num) && (num <=? Z.of_nat (length domains))
      then domains !! Z.to_nat (num - 1)
      else List.find (matchesDomain input) domains
  | None => List.find (matchesDomain input) domains
  end.

(** [!selectedDomain] (line 640). *)
Definition falsy (v : option jsstring) : bool :=
  match v with
  | None => true
  | Some s => emptyString s
  end.

(** [startAssessment], lines 481-492: up to the [await]. *)
Definition startAssessment (w : Widget) : Widget * list Request :=
  (await PStart (addMessage user TStartEvaluation (setLoading true w)),
   [ReqStart]).

(** [startAssessment], lines 493-527: from the [await] on. *)
Definition startAssessment_resume (r : Fetched QuestionsData) (w : Widget)
  : Widget :=
  match r with
  | Parsed data =>
      setLoading false
        (await (TimerAskQuestion (data_questions data) 0)
           (addMessage bot (TIntro (data_total_questions data))
              (setAssessmentState
                 {| active := true; phase := Some Mindset;
                    currentQuestion := 0%nat;
                    questions := data_questions data;
                    answers := ∅; selectedDomain := None;
                    mindsetAnswers := ∅; domainAnswers := ∅ |} w)))
  | Failed => setLoading false (addMessage bot TLoadError w)
  end.

(** [askQuestion], lines 530-548. *)
Definition askQuestion (qs : list Question) (index : nat) (w : Widget)
  : Widget :=
  match qs !! index with
  | Some q => addMessage bot (TQuestion index (length qs) q) w
  | None => w
  end.

(** [handleMindsetAnswer], lines 550-589.  [None]: [questions[currentQuestion]]
    is [undefined] and reading its [id] throws, before any state is set. *)
Definition handleMindsetAnswer (answer : jsstring) (w : Widget)
  : option Widget :=
  let st := assessmentState w in
  match questions st !! currentQuestion st with
  | None => None
  | Some q =>
      let w1 := addMessage user (TText (toUpperCase answer)) w in
      let newAnswers := <[id q := toUpperCase answer]> (mindsetAnswers st) in
      let nextQuestion := (currentQuestion st + 1)%nat in
      if (nextQuestion <? length (questions st))%nat then
        Some (await (TimerAskQuestion (questions st) nextQuestion)
                (setAssessmentState
                   {| active := active st; phase := phase st;
                      currentQuestion := nextQuestion;
                      questions := questions st; answers := answers st;
                      selectedDomain := selectedDomain st;
                      mindsetAnswers := newAnswers;
                      domainAnswers := domainAnswers st |} w1))
      else
        Some (await TimerShowDomainSelection
                (setAssessmentState
                   {| active := active st; phase := Some DomainSelection;
                      currentQuestion := currentQuestion st;
                      questions := questions st; answers := answers st;
                      selectedDomain := selectedDomain st;
                      mindsetAnswers := newAnswers;
                      domainAnswers := domainAnswers st |} w1))
  end.

(** [showDomainSelection], lines 591-602: up to the [await]. *)
Definition showDomainSelection (w : Widget) : Widget * list Request :=
  (await PDomains (addMessage bot TPhase1Complete (setLoading true w)),
   [ReqDomains]).

(** [showDomainSelection], lines 603-623. *)
Definition showDomainSelection_resume (r : Fetched DomainsData) (w : Widget)
  : Widget :=
  match r with
  | Parsed data => setLoading false (addMessage bot (TDomains data) w)
  | Failed => setLoading false (addMessage bot TDomainsError w)
  end.

(** [handleDomainSelection], lines 625-664: up to the [await]. *)
Definition handleDomainSelection (input : jsstring) (w : Widget)
  : Widget * list Request :=
  let selected := resolveDomain input in
  if falsy selected then (addMessage bot TReprompt w, [])
  else
    let d := default [] selected in
    (await (PDomainQuestions (assessmentState w) d)
       (setLoading true (addMessage user (TText d) w)),
     [ReqDomainQuestions d]).

(** [handleDomainSelection], lines 666-699; [captured] is the
    [assessmentState] of the closure that issued the request. *)
Definition handleDomainSelection_resume (captured : AssessmentState)
    (selected : jsstring) (r : Fetched QuestionsData) (w : Widget) : Widget :=
  match r with
  | Parsed data =>
      setLoading false
        (await (TimerAskQuestion (data_questions data) 0)
           (addMessage bot (TPhase3 selected (data_total_questions data))
              (setAssessmentState
                 {| active := active captured; phase := Some DomainTest;
                    currentQuestion := 0%nat;
                    questions := data_questions data;
                    answers := answers captured;
                    selectedDomain := Some selected;
                    mindsetAnswers := mindsetAnswers captured;
                    domainAnswers := ∅ |} w)))
  | Failed => setLoading false (addMessage bot TDomainQuestionsError w)
  end.

(** [submitCompleteAssessment], lines 739-758: up to the [await];
    [rendered] is the [assessmentState] of its closure. *)
Definition submitCompleteAssessment (rendered : AssessmentState)
    (domainAnswers : gmap jsstring jsstring) (w : Widget)
  : Widget * list Request :=
  (await (PEvaluate rendered)
     (addMessage bot TProcessing (setLoading true w)),
   [ReqEvaluate (mindsetAnswers rendered) (selectedDomain rendered)
      domainAnswers]).

(** [submitCompleteAssessment], lines 760-791. *)
Definition submitCompleteAssessment_resume (captured : AssessmentState)
    (r : Fetched EvalResult) (w : Widget) : Widget :=
  let w1 :=
    match r with
    | Parsed result =>
        addMessage bot (TResults (selectedDomain captured) result) w
    | Failed => addMessage bot TEvalError w
    end in
  setAssessmentState initialAssessmentState (setLoading false w1).

(** [handleDomainAnswer], lines 701-737. *)
Definition handleDomainAnswer (answer : jsstring) (w : Widget)
  : option (Widget * list Request) :=
  let st := assessmentState w in
  match questions st !! currentQuestion st with
  | None => None
  | Some q =>
      let w1 := addMessage user (TText (toUpperCase answer)) w in
      let newAnswers := <[id q := toUpperCase answer]> (domainAnswers st) in
      let nextQuestion := (currentQuestion st + 1)%nat in
      if (nextQuestion <? length (questions st))%nat then
        Some (await (TimerAskQuestion (questions st) nextQuestion)
                (setAssessmentState
                   {| active := active st; phase := phase st;
                      currentQuestion := nextQuestion;
                      questions := questions st; answers := answers st;
                      selectedDomain := selectedDomain st;
                      mindsetAnswers := mindsetAnswers st;
                      domainAnswers := newAnswers |} w1), [])
      else
        Some (submitCompleteAssessment st newAnswers
                (setAssessmentState
                   {| active := active st; phase := phase st;
                      currentQuestion := currentQuestion st;
                      questions := questions st; answers := answers st;
                      selectedDomain := selectedDomain st;
                      mindsetAnswers := mindsetAnswers st;
                      domainAnswers := newAnswers |} w1))
  end.

(** [sendMessage], lines 793-823: up to the [await].  [None]: the phase
    handler threw, the promise of [sendMessage] is rejected and no state
    was set. *)
Definition sendMessage (w : Widget) : option (Widget * list Request) :=
  if emptyString (trim (input w)) || loading w then Some (w, [])
  else if active (assessmentState w) then
    match phase (assessmentState w) with
    | Some Mindset =>
        match handleMindsetAnswer (input w) w with
        | Some w' => Some (setInput [] w', [])
        | None => None
        end
    | Some DomainSelection =>
        let '(w', rs) := handleDomainSelection (input w) w in
        Some (setInput [] w', rs)
    | Some DomainTest =>
        match handleDomainAnswer (input w) w with
        | Some (w', rs) => Some (setInput [] w', rs)
        | None => None
        end
    | None => Some (setInput [] w, [])
    end
  else
    Some (await PAsk
            (setLoading true
               (setInput [] (addMessage user (TText (trim (input w))) w))),
          [ReqAsk (trim (input w))]).

(** [sendMessage], lines 825-847. *)
Definition sendMessage_resume (r : Fetched AskData) (w : Widget) : Widget :=
  match r with
  | Parsed data =>
      if ok data then
        setLoading false
          (addMessage bot
             (if falsy (answer data) then TNoAnswer
              else TText (default [] (answer data))) w)
      else setLoading false (addMessage bot TAskError w)
  | Failed => setLoading false (addMessage bot TAskError w)
  end.

(** [clearChat], lines 856-874. *)
Definition clearChat (w : Widget) : Widget :=
  setAssessmentState initialAssessmentState
    (setMessages [ {| type := bot; text := TClearGreeting |} ] w).

(** [toggleOpen], lines 466-468. *)
Definition toggleOpen (w : Widget) : Widget := setOpen (negb (open w)) w.

(** What a pending continuation is resumed with: the outcome of its request,
    or nothing for a timer. *)
Inductive Response :=
| RStart (r : Fetched QuestionsData)
| RDomains (r : Fetched DomainsData)
| RDomainQuestions (r : Fetched QuestionsData)
| REvaluate (r : Fetched EvalResult)
| RAsk (r : Fetched AskData)
| RTimer.

(** The events the component reacts to. *)
Inductive Event :=
| ToggleOpen                          (* the launcher or the close button *)
| SetInput (text : jsstring)          (* typing, or a quick action *)
| SendMessage                         (* the send button or the Enter key *)
| ClearChat                           (* the new-conversation button *)
| StartAssessment                     (* the evaluation button *)
| Resume (i : nat) (r : Response).    (* the i-th pending continuation runs *)

(** A pending continuation runs. *)
Definition resume (p : Pending) (r : Response) (w : Widget)
  : option (Widget * list Request) :=
  match p, r with
  | PStart, RStart r => Some (startAssessment_resume r w, [])
  | PDomains, RDomains r => Some (showDomainSelection_resume r w, [])
  | PDomainQuestions captured d, RDomainQuestions r =>
      Some (handleDomainSelection_resume captured d r w, [])
  | PEvaluate captured, REvaluate r =>
      Some (submitCompleteAssessment_resume captured r w, [])
  | PAsk, RAsk r => Some (sendMessage_resume r w, [])
  | TimerAskQuestion qs index, RTimer => Some (askQuestion qs index w, [])
  | TimerShowDomainSelection, RTimer => Some (showDomainSelection w)
  | _, _ => None
  end.

(** One event.  [None]: the event cannot happen in this state (the control
    is not rendered or is disabled, lines 1020 and 1072-1087; no such
    continuation is pending).  A handler that throws leaves the state as it
    was. *)
Definition step (w : Widget) (e : Event) : option (Widget * list Request) :=
  match e with
  | ToggleOpen => Some (toggleOpen w, [])
  | SetInput s =>
      if open w && negb (loading w) then Some (setInput s w, []) else None
  | SendMessage =>
      if open w then
        match sendMessage w with
        | Some r => Some r
        | None => Some (w, [])
        end
      else None
  | ClearChat => if open w then Some (clearChat w, []) else None
  | StartAssessment =>
      if open w && (length (messages w) =? 1)%nat && negb (loading w)
      then Some (startAssessment w) else None
  | Resume i r =>
      match pending w !! i with
      | Some p => resume p r (setPending (delete i (pending w)) w)
      | None => None
      end
  end.

(** A run of events, with the requests issued along it. *)
Fixpoint run (w : Widget) (es : list Event) : option (Widget * list Request) :=
  match es with
  | [] => Some (w, [])
  | e :: es' =>
      match step w e with
      | Some (w', rs) =>
          match run w' es' with
          | Some (w'', rs') => Some (w'', rs ++ rs')
          | None => None
          end
      | None => None
      end
  end.

Inductive reachable : Widget -> Prop :=
| reachable_init : reachable initialWidget
| reachable_step w e w' rs :
    reachable w -> step w e = Some (w', rs) -> reachable w'.

(** The claim's valid inputs in the spec's words: one of the numerals 1 to
    5, or a case-insensitive substring match with a domain. *)
Definition spec_validDomainInput (input : jsstring) : bool :=
  existsb (jsstring_eqb input)
    [str "1"; str "2"; str "3"; str "4"; str "5"]
  || existsb (matchesDomain input) domains.

(** The input, read by [parseInt], is a number from 1 to 5. *)
Definition leadingIndex (input : jsstring) : bool :=
  match parseInt input with
  | Some num => (1 <=? num) && (num <=? 5)
  | None => false
  end.

(** An answer map holds upper-cased, non-blank inputs only. *)
Definition answersFromInputs (m : gmap jsstring jsstring) : Prop :=
  map_Forall
    (fun _ v => exists s, emptyString (trim s) = false /\ v = toUpperCase s) m.


Definition stateAnswersFromInputs (st : AssessmentState) : Prop :=
  answersFromInputs (mindsetAnswers st)
  /\ answersFromInputs (domainAnswers st).

(** The same for the states that pending continuations will restore. *)
Definition pendingAnswersFromInputs (p : Pending) : Prop :=
  match p with
  | PDomainQuestions captured _ | PEvaluate captured =>
      stateAnswersFromInputs captured
  | _ => True
  end.

Definition widgetAnswersFromInputs (w : Widget) : Prop :=
  stateAnswersFromInputs (assessmentState w)
  /\ Forall pendingAnswersFromInputs (pending w).

End Handlers.

(** The current index points into the question list, when there is one. *)
Definition indexInRange (st : AssessmentState) : Prop :=
  questions st = []
  \/ (currentQuestion st < length (questions st))%nat.

(** The keys of the answer maps are ids of questions of the current list:
    those of [domainAnswers] always, those of [mindsetAnswers] until the
    domain questions replace the mindset questions. *)
Definition keysAreQuestionIds (st : AssessmentState) : Prop :=
  (phase st <> Some DomainTest ->
   forall k, is_Some (mindsetAnswers st !! k) ->
             exists q, q ∈ questions st /\ id q = k)
  /\ (forall k, is_Some (domainAnswers st !! k) ->
                exists q, q ∈ questions st /\ id q = k).

(** An option letter, in the claim's words: one of A, B, C, D. *)
Definition spec_isOptionLetter (v : jsstring) : bool :=
  existsb (jsstring_eqb v) [str "A"; str "B"; str "C"; str "D"].

(** The setters are unfolded and the projections computed. *)
Ltac unfold_widget :=
  unfold await, addMessage, setLoading, setMessages, setInput,
    setAssessmentState, setPending, setOpen in *;
  simpl in *.

(** A pending continuation that waits for a response, not for a timer. *)
Definition isRequest (p : Pending) : bool :=
  match p with
  | TimerAskQuestion _ _ | TimerShowDomainSelection => false
  | _ => true
  end.

(** *** Sample runs *)

Definition sampleMindsetQuestions : list Question :=
  [ {| id := str "m1"; question := str "How do you approach a problem?";
       options := None |};
    {| id := str "m2"; question := str "What drives your curiosity?";
       options := None |} ].

Definition sampleDomainQuestions : list Question :=
  [ {| id := str "d1"; question := str "What is a force?";
       options := None |};
    {| id := str "d2"; question := str "What is energy?";
       options := None |} ].

Definition sampleStart : Response :=
  RStart (Parsed {| data_questions := sampleMindsetQuestions;
                    data_total_questions := 2 |}).

Definition sampleDomains : Response :=
  RDomains (Parsed {| data_domains := domains;
                      data_message := str "Pick a domain" |}).

Definition sampleDomainTest : Response :=
  RDomainQuestions (Parsed {| data_questions := sampleDomainQuestions;
                              data_total_questions := 2 |}).

(** The widget is opened, the assessment started, the first mindset
    question shown, and [answer] typed. *)
Definition firstAnswerTyped (answer : jsstring) : list Event :=
  [ ToggleOpen; StartAssessment; Resume 0 sampleStart; Resume 0 RTimer;
    SetInput answer ].

(** Both mindset questions are answered, the second one with [answer]. *)
Definition lastMindsetAnswerTyped (answer : jsstring) : list Event :=
  firstAnswerTyped (str "a")
  ++ [ SendMessage; Resume 0 RTimer; SetInput answer ].

(** The domain list is shown and [choice] typed. *)
Definition domainChoiceTyped (choice : jsstring) : list Event :=
  lastMindsetAnswerTyped (str "b")
  ++ [ SendMessage; Resume 0 RTimer; Resume 0 sampleDomains;
       SetInput choice ].

(** The domain test runs and its first answer is typed. *)
Definition firstDomainAnswerTyped (answer : jsstring) : list Event :=
  domainChoiceTyped (str "3")
  ++ [ SendMessage; Resume 0 sampleDomainTest; Resume 0 RTimer;
       SetInput answer ].

(** The last answer of the domain test is typed. *)
Definition lastDomainAnswerTyped : list Event :=
  firstDomainAnswerTyped (str "c")
  ++ [ SendMessage; Resume 0 RTimer; SetInput (str "d") ].

(** All questions are answered and the evaluation is requested. *)
Definition evaluationRequested : list Event :=
  lastDomainAnswerTyped ++ [ SendMessage ].

(** The last mindset answer and the domain choice are sent before the
    timer of [showDomainSelection] fires; then it fires. *)
Definition domainChosenEarly : list Event :=
  lastMindsetAnswerTyped (str "b")
  ++ [ SendMessage; SetInput (str "3"); SendMessage; Resume 0 RTimer ].

(** The state after a run from the initial state, with ASCII input. *)
Definition stateAfter (es : list Event) : Widget :=
  match run asciiLower asciiUpper initialWidget es with
  | Some (w, _) => w
  | None => initialWidget
  end.

End Assessment.

(** ** The modal quiz ([PsychometricQuiz.jsx]) *)

Module Quiz.

(** A parsed response body. *)
#[local] Set Warnings "-register-all".
Inductive json :=
| JNull
| JBool (b : bool)
| JNum (n : Z)
| JStr (s : jsstring)
| JArr (items : list json)
| JObj (fields : list (jsstring * json)).
#[local] Set Warnings "register-all".

(** A JS value of the component: [None] is [undefined]. *)
Definition value := option json.

(** The last binding of a key ([JSON.parse] keeps the last duplicate). *)
Fixpoint lookupField (k : jsstring) (fields : list (jsstring * json))
  : value :=
  match fields with
  | [] => None
  | (k', v) :: rest =>
      match lookupField k rest with
      | Some v' => Some v'
      | None => if jsstring_eqb k k' then Some v else None
      end
  end.

(** The property read [v.k] for the keys the component reads ([success],
    [message], [session_id], [first_question], [completed],
    [next_question], [question_num], [score_data], [options]): it throws a
    TypeError, [None] here, on [undefined] and [null], and gives
    [undefined] on a boolean, a number, a string or an array. *)
Definition get (v : value) (k : jsstring) : option value :=
  match v with
  | None | Some JNull => None
  | Some (JObj fields) => Some (lookupField k fields)
  | Some _ => Some None
  end.

(** ToBoolean. *)
Definition truthy (v : value) : bool :=
  match v with
  | None | Some JNull => false
  | Some (JBool b) => b
  | Some (JNum n) => negb (n =? 0)
  | Some (JStr s) => negb (emptyString s)
  | Some (JArr _) | Some (JObj _) => true
  end.

(** [v === true] and [v === false]. *)
Definition isTrue (v : value) : bool :=
  match v with Some (JBool true) => true | _ => false end.
Definition isFalse (v : value) : bool :=
  match v with Some (JBool false) => true | _ => false end.

(** [formData] (lines 7-11); [age] is [None] when [parseInt] gave [NaN]. *)
Record FormData := {
  age : option Z;
  education : jsstring;
  domain : jsstring
}.

(** The values of [step]: ['setup'], ['quiz'], ['results']. *)
Inductive Step := Setup | InQuiz | Results.

(** What the component sends. *)
Inductive Request :=
| PostStart (body : FormData)                 (* POST /api/quiz/start *)
| PostAnswer (answer : nat) (question_num session_id : value)
                                              (* POST /api/quiz/answer *)
| GetResults (session_id : value).            (* GET /api/quiz/results *)

(** What reaches a [catch] block. *)
Inductive Error :=
| FetchRejected                               (* [fetch] or the body read rejects *)
| HttpError (status : Z) (errorText : jsstring)        (* lines 40, 92 *)
| ResultsHttpError (status : Z) (errorText : jsstring) (* line 113 *)
| JsonRejected                                (* [response.json()] rejects *)
| TypeError                                   (* a property read of [null] *)
| InvalidResultsFormat                        (* line 123 *)
| UnexpectedResponse (data : json).           (* line 131 *)

(** The texts of [alert]. *)
Inductive AlertText :=
| StartFailed (message : value)               (* line 55 *)
| StartError (e : Error)                      (* line 59 *)
| SubmitError (e : Error).                    (* line 135 *)

Inductive Effect :=
| Fetch (r : Request)
| Alert (a : AlertText).

(** A response as the handlers read it: [ok], [status], and what
    [response.text()] and [response.json()] resolve to ([None]: the promise
    rejects, for [json] also when the body is not JSON). *)
Record HttpResponse := {
  ok : bool;
  status : Z;
  text : option jsstring;
  body : option json
}.

(** How [await fetch(...)] ends. *)
Inductive Outcome :=
| Rejected
| Resolved (r : HttpResponse).

(** The rest of an [async] handler behind its [await fetch], with the
    [sessionId] its closure holds. *)
Inductive Pending :=
| PStartQuiz
| PAnswer (sessionId : value)
| PResults (sessionId : value).

(** The component's state (lines 6-18) and the continuations in flight. *)
Record PsychometricQuiz := {
  step : Step;
  formData : FormData;
  quizData : value;
  currentQuestion : value;
  selectedAnswer : option nat;
  questionNum : value;
  results : value;
  loading : bool;
  sessionId : value;
  pending : list Pending
}.

Definition initialQuiz : PsychometricQuiz :=
  {| step := Setup;
     formData := {| age := Some 20; education := str "Undergraduate";
                    domain := str "Computer Science" |};
     quizData := Some JNull;
     currentQuestion := Some JNull;
     selectedAnswer := None;
     questionNum := Some (JNum 1);
     results := Some JNull;
     loading := false;
     sessionId := Some JNull;
     pending := [] |}.

Definition setLoading (b : bool) (q : PsychometricQuiz) : PsychometricQuiz :=
  {| step := step q; formData := formData q; quizData := quizData q;
     currentQuestion := currentQuestion q;
     selectedAnswer := selectedAnswer q; questionNum := questionNum q;
     results := results q; loading := b; sessionId := sessionId q;
     pending := pending q |}.
Definition setPending (ps : list Pending) (q : PsychometricQuiz)
  : PsychometricQuiz :=
  {| step := step q; formData := formData q; quizData := quizData q;
     currentQuestion := currentQuestion q;
     selectedAnswer := selectedAnswer q; questionNum := questionNum q;
     results := results q; loading := loading q; sessionId := sessionId q;
     pending := ps |}.
Definition setFormData (fd : FormData) (q : PsychometricQuiz)
  : PsychometricQuiz :=
  {| step := step q; formData := fd; quizData := quizData q;
     currentQuestion := currentQuestion q;
     selectedAnswer := selectedAnswer q; questionNum := questionNum q;
     results := results q; loading := loading q; sessionId := sessionId q;
     pending := pending q |}.
Definition setSelectedAnswer (a : option nat) (q : PsychometricQuiz)
  : PsychometricQuiz :=
  {| step := step q; formData := formData q; quizData := quizData q;
     currentQuestion := currentQuestion q;
     selectedAnswer := a; questionNum := questionNum q;
     results := results q; loading := loading q; sessionId := sessionId q;
     pending := pending q |}.

Definition await (p : Pending) (q : PsychometricQuiz) : PsychometricQuiz :=
  setPending (pending q ++ [p]) q.

(** [startQuiz], lines 20-33: up to the [await]. *)
Definition startQuiz (q : PsychometricQuiz)
  : PsychometricQuiz * list Effect :=
  (await PStartQuiz (setLoading true q), [Fetch (PostStart (formData q))]).

(** The [try] block of [startQuiz] from line 35 on: the state it sets and
    the alert of its [else] branch, or the error it throws. *)
Definition startQuiz_try (o : Outcome) (q : PsychometricQuiz)
  : PsychometricQuiz * list Effect + Error :=
  match o with
  | Rejected => inr FetchRejected
  | Resolved r =>
      if negb (ok r) then
        match text r with
        | Some errorText => inr (HttpError (status r) errorText)
        | None => inr FetchRejected
        end
      else
        match body r with
        | None => inr JsonRejected
        | Some data =>
            match get (Some data) (str "success") with
            | None => inr TypeError
            | Some success =>
                if truthy success then
                  inl ({| step := InQuiz; formData := formData q;
                          quizData := Some data;
                          currentQuestion :=
                            default None
                              (get (Some data) (str "first_question"));
                          selectedAnswer := selectedAnswer q;
                          questionNum := Some (JNum 1);
                          results := results q; loading := loading q;
                          sessionId :=
                            default None
                              (get (Some data) (str "session_id"));
                          pending := pending q |}, [])
                else
                  inl (q, [Alert (StartFailed
                                    (default None
                                       (get (Some data) (str "message"))))])
            end
        end
  end.

(** [startQuiz], lines 35-62: from the [await] on, with [catch] and
    [finally]. *)
Definition startQuiz_resume (o : Outcome) (q : PsychometricQuiz)
  : PsychometricQuiz * list Effect :=
  match startQuiz_try o q with
  | inl (q', es) => (setLoading false q', es)
  | inr e => (setLoading false q, [Alert (StartError e)])
  end.

(** [submitAnswer], lines 65-85: up to the first [await]. *)
Definition submitAnswer (q : PsychometricQuiz)
  : PsychometricQuiz * list Effect :=
  match selectedAnswer q with
  | None => (q, [])
  | Some a =>
      (await (PAnswer (sessionId q)) (setLoading true q),
       [Fetch (PostAnswer a (questionNum q) (sessionId q))])
  end.

(** What the [try] block of [submitAnswer] does with the answer's
    response (lines 87-132): it goes on to fetch the results, or it is
    over. *)
Inductive AnswerStep :=
| FetchResults
| Done (q : PsychometricQuiz).

Definition submitAnswer_try (o : Outcome) (q : PsychometricQuiz)
  : AnswerStep + Error :=
  match o with
  | Rejected => inr FetchRejected
  | Resolved r =>
      if negb (ok r) then
        match text r with
        | Some errorText => inr (HttpError (status r) errorText)
        | None => inr FetchRejected
        end
      else
        match body r with
        | None => inr JsonRejected
        | Some data =>
            match get (Some data) (str "completed") with
            | None => inr TypeError
            | Some completed =>
                let next_question :=
                  default None (get (Some data) (str "next_question")) in
                if isTrue completed then inl FetchResults
                else if isFalse completed && truthy next_question then
                  inl (Done
                         {| step := step q; formData := formData q;
                            quizData := quizData q;
                            currentQuestion := next_question;
                            selectedAnswer := None;
                            questionNum :=
                              default None
                                (get next_question (str "question_num"));
                            results := results q; loading := loading q;
                            sessionId := sessionId q;
                            pending := pending q |})
                else inr (UnexpectedResponse data)
            end
        end
  end.

(** [submitAnswer], lines 87-138, when the answer's response arrives;
    [sid] is the [sessionId] of the closure. *)
Definition submitAnswer_resume (sid : value) (o : Outcome)
    (q : PsychometricQuiz) : PsychometricQuiz * list Effect :=
  match submitAnswer_try o q with
  | inl FetchResults => (await (PResults sid) q, [Fetch (GetResults sid)])
  | inl (Done q') => (setLoading false q', [])
  | inr e => (setLoading false q, [Alert (SubmitError e)])
  end.

(** The [try] block from line 108 on, when the results' response arrives. *)
Definition fetchResults_try (o : Outcome) (q : PsychometricQuiz)
  : PsychometricQuiz + Error :=
  match o with
  | Rejected => inr FetchRejected
  | Resolved r =>
      if negb (ok r) then
        match text r with
        | Some errorText => inr (ResultsHttpError (status r) errorText)
        | None => inr FetchRejected
        end
      else
        match body r with
        | None => inr JsonRejected
        | Some resultsData =>
            match get (Some resultsData) (str "success") with
            | None => inr TypeError
            | Some success =>
                if truthy success
                   && truthy (default None
                                (get (Some resultsData) (str "score_data")))
                then
                  inl {| step := Results; formData := formData q;
                         quizData := quizData q;
                         currentQuestion := currentQuestion q;
                         selectedAnswer := selectedAnswer q;
                         questionNum := questionNum q;
                         results := Some resultsData; loading := loading q;
                         sessionId := sessionId q; pending := pending q |}
                else inr InvalidResultsFormat
            end
        end
  end.

(** [submitAnswer], lines 108-138, with [catch] and [finally]. *)
Definition fetchResults_resume (o : Outcome) (q : PsychometricQuiz)
  : PsychometricQuiz * list Effect :=
  match fetchResults_try o q with
  | inl q' => (setLoading false q', [])
  | inr e => (setLoading false q, [Alert (SubmitError e)])
  end.

(** The number of option buttons rendered (line 356). *)
Definition optionCount (q : PsychometricQuiz) : nat :=
  match default None (get (currentQuestion q) (str "options")) with
  | Some (JArr items) => length items
  | _ => 0%nat
  end.

(** The quiz step is rendered (line 344). *)
Definition quizShown (q : PsychometricQuiz) : bool :=
  match step q with
  | InQuiz => truthy (currentQuestion q) && truthy (quizData q)
  | _ => false
  end.

(** The events of the modal. *)
Inductive Event :=
| ChangeForm (fd : FormData)          (* lines 285, 296, 313 *)
| ClickStart                          (* line 329 *)
| ClickOption (index : nat)           (* line 363 *)
| ClickSubmit                         (* line 377 *)
| Resume (i : nat) (o : Outcome).     (* the i-th pending continuation runs *)

Definition resume (p : Pending) (o : Outcome) (q : PsychometricQuiz)
  : PsychometricQuiz * list Effect :=
  match p with
  | PStartQuiz => startQuiz_resume o q
  | PAnswer sid => submitAnswer_resume sid o q
  | PResults _ => fetchResults_resume o q
  end.

(** One event.  [None]: the control is not rendered or is disabled (the
    start button by [disabled={loading}], line 330; the submit button by
    [disabled={selectedAnswer === null || loading}], line 378), or no such
    continuation is pending. *)
Definition handle (q : PsychometricQuiz) (e : Event)
  : option (PsychometricQuiz * list Effect) :=
  match e with
  | ChangeForm fd =>
      match step q with
      | Setup => Some (setFormData fd q, [])
      | _ => None
      end
  | ClickStart =>
      match step q with
      | Setup => if loading q then None else Some (startQuiz q)
      | _ => None
      end
  | ClickOption index =>
      if quizShown q && (index <? optionCount q)%nat
      then Some (setSelectedAnswer (Some index) q, [])
      else None
  | ClickSubmit =>
      if quizShown q
         && negb (match selectedAnswer q with None => true | _ => false end
                  || loading q)
      then Some (submitAnswer q)
      else None
  | Resume i o =>
      match pending q !! i with
      | Some p => Some (resume p o (setPending (delete i (pending q)) q))
      | None => None
      end
  end.

Fixpoint run (q : PsychometricQuiz) (es : list Event)
  : option (PsychometricQuiz * list Effect) :=
  match es with
  | [] => Some (q, [])
  | e :: es' =>
      match handle q e with
      | Some (q', fx) =>
          match run q' es' with
          | Some (q'', fx') => Some (q'', fx ++ fx')
          | None => None
          end
      | None => None
      end
  end.

Inductive reachable : PsychometricQuiz -> Prop :=
| reachable_init : reachable initialQuiz
| reachable_step q e q' fx :
    reachable q -> handle q e = Some (q', fx) -> reachable q'.

(** The requests among the effects. *)
Definition isResultsFetch (e : Effect) : bool :=
  match e with Fetch (GetResults _) => true | _ => false end.
Definition isFetch (e : Effect) : bool :=
  match e with Fetch _ => true | Alert _ => false end.

(** The setters are unfolded and the projections computed. *)
Ltac unfold_quiz :=
  unfold await, setLoading, setPending, setFormData, setSelectedAnswer in *;
  simpl in *.

(** The loading flag stands for the one request in flight. *)
Definition oneInFlight (q : PsychometricQuiz) : Prop :=
  pending q = [] /\ loading q = false
  \/ exists p, pending q = [p] /\ loading q = true.

(** A response whose body parsed. *)
Definition okResponse (data : json) : Outcome :=
  Resolved {| ok := true; status := 200; text := None; body := Some data |}.

(** The body [{completed: true}]. *)
Definition completedBody : json := JObj [(str "completed", JBool true)].

(** A state in which an answer is selected while an earlier submission is
    still loading. *)
Definition submittingQuiz : PsychometricQuiz :=
  {| step := InQuiz;
     formData := formData initialQuiz;
     quizData := Some (JObj [(str "success", JBool true);
                             (str "total_questions", JNum 5)]);
     currentQuestion :=
       Some (JObj [(str "question_num", JNum 5);
                   (str "options", JArr [JStr (str "a"); JStr (str "b");
                                         JStr (str "c")])]);
     selectedAnswer := Some 2%nat;
     questionNum := Some (JNum 5);
     results := Some JNull;
     loading := true;
     sessionId := Some (JStr (str "s1"));
     pending := [PAnswer (Some (JStr (str "s1")))] |}.

(** The start of the spec's scenario: the quiz is started and the server
    answers with session [s1], five questions and a first question. *)
Definition sampleStartBody : json :=
  JObj [(str "success", JBool true);
        (str "session_id", JStr (str "s1"));
        (str "total_questions", JNum 5);
        (str "first_question",
         JObj [(str "question_num", JNum 1);
               (str "stem", JStr (str "Pick one"));
               (str "options", JArr [JStr (str "a"); JStr (str "b");
                                     JStr (str "c"); JStr (str "d")])])].

Definition sampleQuizRun : list Event :=
  [ ClickStart; Resume 0 (okResponse sampleStartBody); ClickOption 2;
    ClickSubmit ].

Definition quizAfter (es : list Event) : PsychometricQuiz :=
  match run initialQuiz es with
  | Some (q, _) => q
  | None => initialQuiz
  end.

End Quiz.

(** ** Further invariants of the chat-driven assessment *)

Module AssessmentInvariants.
Import Assessment.

(** The phase decides which fields are set: nothing before the start,
    no domain and no domain answer before the domain test, a domain of the
    list during it.  [answers] is never written. *)
Definition wellPhased (st : AssessmentState) : Prop :=
  answers st = ∅
  /\ match phase st with
     | None => st = initialAssessmentState
     | Some DomainTest =>
         active st = true
         /\ exists d, selectedDomain st = Some d /\ d ∈ domains
     | Some _ =>
         active st = true
         /\ selectedDomain st = None /\ domainAnswers st = ∅
     end.

(** The same for the state a pending continuation will restore. *)
Definition pendingWellPhased (p : Pending) : Prop :=
  match p with
  | PDomainQuestions captured d =>
      wellPhased captured /\ phase captured = Some DomainSelection
      /\ d ∈ domains
  | _ => True
  end.

Definition widgetWellPhased (w : Widget) : Prop :=
  wellPhased (assessmentState w)
  /\ Forall pendingWellPhased (pending w).

(** The questions before the current index are answered; all of them
    once the mindset phase is over. *)
Definition answeredSoFar (st : AssessmentState) : Prop :=
  match phase st with
  | Some Mindset =>
      forall i q, (i < currentQuestion st)%nat -> questions st !! i = Some q ->
                  is_Some (mindsetAnswers st !! id q)
  | Some DomainSelection =>
      forall q, q ∈ questions st -> is_Some (mindsetAnswers st !! id q)
  | Some DomainTest =>
      forall i q, (i < currentQuestion st)%nat -> questions st !! i = Some q ->
                  is_Some (domainAnswers st !! id q)
  | None => True
  end.

(** Some request is in flight. *)
Definition requestInFlight (w : Widget) : Prop :=
  Exists (fun p => isRequest p = true) (pending w).

(** A question message shows the question at its index of a list of the
    length it names. *)
Definition questionNumbered (m : Message) : Prop :=
  match text m with
  | TQuestion index total q =>
      exists qs : list Question, qs !! index = Some q /\ length qs = total
  | _ => True
  end.

(** The requests that name a domain name one of the list. *)
Definition namesListedDomain (r : Request) : Prop :=
  match r with
  | ReqDomainQuestions d => d ∈ domains
  | ReqEvaluate _ d _ => exists d', d = Some d' /\ d' ∈ domains
  | _ => True
  end.

(** The backend answers the start with no question; an answer is typed. *)
Definition noQuestionsAnswerTyped : list Event :=
  [ ToggleOpen; StartAssessment;
    Resume 0 (RStart (Parsed {| data_questions := [];
                                data_total_questions := 0 |}));
    Resume 0 RTimer; SetInput (str "a") ].

(** The domain is chosen and its questions are being fetched. *)
Definition domainQuestionsRequested : list Event :=
  domainChoiceTyped (str "3") ++ [ SendMessage ].

(** An ordinary question is typed outside the assessment. *)
Definition questionTyped : list Event :=
  [ ToggleOpen; SetInput (str "  What is GRH? ") ].

(** The requests issued along a run from the initial state, with ASCII
    input. *)
Definition requestsOf (es : list Event) : list Request :=
  match run asciiLower asciiUpper initialWidget es with
  | Some (_, rs) => rs
  | None => []
  end.

Definition isEvaluate (r : Request) : bool :=
  match r with ReqEvaluate _ _ _ => true | _ => false end.


(** The domain is chosen before the timer of [showDomainSelection] fires
    (line 585), so that the [/domains] request is in flight beside the
    domain questions' request.  The domain test is answered to its end and
    the evaluation requested; then the [/domains] response arrives, whose
    [finally] clears the loading flag (line 622), and the last answer is
    sent once more. *)
Definition evaluationRepeated : list Event :=
  domainChosenEarly
  ++ [ Resume 0 sampleDomainTest; Resume 1 RTimer; SetInput (str "c");
       SendMessage; Resume 1 RTimer; SetInput (str "d"); SendMessage;
       Resume 0 sampleDomains; SetInput (str "d"); SendMessage ].

(** The domain is chosen before the timer of [showDomainSelection] fires,
    and once more when the [/domains] response has cleared the loading
    flag: two requests for domain questions are in flight.  The first
    response starts the domain test, which is answered to its end; the
    evaluation fails. *)
Definition evaluationFailed : list Event :=
  domainChosenEarly
  ++ [ Resume 1 sampleDomains; SetInput (str "3"); SendMessage;
       Resume 0 sampleDomainTest; Resume 1 RTimer; SetInput (str "c");
       SendMessage; Resume 1 RTimer; SetInput (str "d"); SendMessage;
       Resume 1 (REvaluate Failed) ].

(** After the failed evaluation the second response with domain questions
    arrives, and the domain test is answered again. *)
Definition answersResubmitted : list Event :=
  evaluationFailed
  ++ [ Resume 0 sampleDomainTest; Resume 0 RTimer; SetInput (str "c");
       SendMessage; Resume 0 RTimer; SetInput (str "d"); SendMessage ].


End AssessmentInvariants.

(** ** [formatMessageText] of the second [ChatbotWidget] (lines 470-479) *)

Module Format.

(** A code unit is put in front of the first part. *)
Definition consHead (c : N) (parts : list jsstring) : list jsstring :=
  match parts with
  | p :: ps => (c :: p) :: ps
  | [] => [[c]]
  end.

(** [s.split(sep)] for a separator of one code unit. *)
Fixpoint splitUnit (sep : N) (s : jsstring) : list jsstring :=
  match s with
  | [] => [[]]
  | c :: s' =>
      if (c =? sep)%N then [] :: splitUnit sep s'
      else consHead c (splitUnit sep s')
  end.

(** [line.split('**')]: the line is cut at each [**], read from the left;
    of three stars the first two are the separator. *)
Fixpoint splitStars (s : jsstring) : list jsstring :=
  match s with
  | [] => [[]]
  | c :: s' =>
      match s' with
      | d :: s'' =>
          if ((c =? 42) && (d =? 42))%N then [] :: splitStars s''
          else consHead c (splitStars s')
      | [] => [[c]]
      end
  end.

(** [parts.join(sep)]. *)
Definition join (sep : jsstring) (parts : list jsstring) : jsstring :=
  match parts with
  | [] => []
  | p :: ps => p ++ concat (List.map (fun q => sep ++ q) ps)
  end.

(** What a line is rendered as: plain text, or text in [<strong>]. *)
Inductive Node :=
| Text (s : jsstring)
| Strong (s : jsstring).

Definition nodeText (n : Node) : jsstring :=
  match n with Text s | Strong s => s end.

(** The inner [map] of line 473: the parts at odd positions are bold. *)
Definition markBold (parts : list jsstring) : list Node :=
  imap (fun j part => if Nat.even j then Text part else Strong part) parts.

(** A rendered line: its nodes, and whether a [<br />] follows. *)
Record Line := { nodes : list Node; br : bool }.

(** [formatMessageText], lines 470-479. *)
Definition formatMessageText (text : jsstring) : list Line :=
  let lines := splitUnit 10 text in
  imap (fun i line =>
          {| nodes := markBold (splitStars line);
             br := (i <? length lines - 1)%nat |})
       lines.

(** The text of a rendered message with its markers put back. *)
Definition sourceText (ls : list Line) : jsstring :=
  join [10%N]
    (List.map (fun l => join [42%N; 42%N] (List.map nodeText (nodes l))) ls).

End Format.

(** ** The first [ChatbotWidget] of [App.jsx] (lines 79-421) *)

Module ChatWidget.

(** The texts of its messages. *)
Inductive MsgText :=
| TGreeting                                   (* lines 85 and 189 *)
| TText (s : jsstring)                        (* a string shown as it is *)
| TFallback                                   (* line 158 *)
| TConnectivityError.                         (* line 169 *)

Record Message := { type : Assessment.Sender; text : MsgText }.

(** What [res.json()] resolved to, as the [setTimeout] callback reads it:
    [BodyNull] is the body [null], whose [data.answer] throws; otherwise
    [data.answer], [None] when the body has none. *)
Inductive AskBody :=
| BodyNull
| BodyAnswer (answer : option jsstring).

(** The response of [/api/ask]: [res.ok] (line 148) and the parsed body. *)
Record AskResponse := { ok : bool; data : AskBody }.

(** The rest of [sendMessage] behind its [await fetch], and the
    [setTimeout] callback of line 154 with the [data] it holds. *)
Inductive Pending :=
| PAsk
| TimerReply (data : AskBody).

(** The component's state (lines 80-91) and what is waiting to run. *)
Record Widget := {
  open : bool;
  showQuiz : bool;
  messages : list Message;
  input : jsstring;
  loading : bool;
  isTyping : bool;
  pending : list Pending
}.

Definition initialWidget : Widget :=
  {| open := false; showQuiz := false;
     messages := [ {| type := Assessment.bot; text := TGreeting |} ];
     input := []; loading := false; isTyping := false; pending := [] |}.

Definition setOpen (b : bool) (w : Widget) : Widget :=
  {| open := b; showQuiz := showQuiz w; messages := messages w;
     input := input w; loading := loading w; isTyping := isTyping w;
     pending := pending w |}.
Definition setShowQuiz (b : bool) (w : Widget) : Widget :=
  {| open := open w; showQuiz := b; messages := messages w;
     input := input w; loading := loading w; isTyping := isTyping w;
     pending := pending w |}.
Definition setMessages (ms : list Message) (w : Widget) : Widget :=
  {| open := open w; showQuiz := showQuiz w; messages := ms;
     input := input w; loading := loading w; isTyping := isTyping w;
     pending := pending w |}.
Definition setInput (s : jsstring) (w : Widget) : Widget :=
  {| open := open w; showQuiz := showQuiz w; messages := messages w;
     input := s; loading := loading w; isTyping := isTyping w;
     pending := pending w |}.
Definition setLoading (b : bool) (w : Widget) : Widget :=
  {| open := open w; showQuiz := showQuiz w; messages := messages w;
     input := input w; loading := b; isTyping := isTyping w;
     pending := pending w |}.
Definition setIsTyping (b : bool) (w : Widget) : Widget :=
  {| open := open w; showQuiz := showQuiz w; messages := messages w;
     input := input w; loading := loading w; isTyping := b;
     pending := pending w |}.
Definition setPending (ps : list Pending) (w : Widget) : Widget :=
  {| open := open w; showQuiz := showQuiz w; messages := messages w;
     input := input w; loading := loading w; isTyping := isTyping w;
     pending := ps |}.

Definition addMessage (who : Assessment.Sender) (t : MsgText) (w : Widget)
  : Widget :=
  setMessages (messages w ++ [ {| type := who; text := t |} ]) w.

Definition await (p : Pending) (w : Widget) : Widget :=
  setPending (pending w ++ [p]) w.

(** [sendMessage], lines 127-146: up to the [await]; the question asked
    is the request issued. *)
Definition sendMessage (w : Widget) : Widget * list jsstring :=
  if emptyString (trim (input w)) || loading w then (w, [])
  else
    (await PAsk
       (setIsTyping true
          (setLoading true
             (setInput []
                (addMessage Assessment.user (TText (trim (input w))) w)))),
     [trim (input w)]).

(** [sendMessage], lines 148-176: from the [await] on. *)
Definition sendMessage_resume (r : Assessment.Fetched AskResponse)
    (w : Widget) : Widget :=
  match r with
  | Assessment.Parsed res =>
      if ok res then setLoading false (await (TimerReply (data res)) w)
      else
        setLoading false
          (addMessage Assessment.bot TConnectivityError
             (setIsTyping false w))
  | Assessment.Failed =>
      setLoading false
        (addMessage Assessment.bot TConnectivityError (setIsTyping false w))
  end.

(** The [setTimeout] callback of lines 154-162; on the body [null] it
    throws at [data.answer], after [setIsTyping(false)]. *)
Definition showReply (data : AskBody) (w : Widget) : Widget :=
  match data with
  | BodyNull => setIsTyping false w
  | BodyAnswer answer =>
      addMessage Assessment.bot
        (match answer with
         | Some (c :: s) => TText (c :: s)
         | _ => TFallback
         end)
        (setIsTyping false w)
  end.

(** [clearChat], lines 185-193. *)
Definition clearChat (w : Widget) : Widget :=
  setMessages [ {| type := Assessment.bot; text := TGreeting |} ] w.

(** [toggleOpen], lines 109-111. *)
Definition toggleOpen (w : Widget) : Widget := setOpen (negb (open w)) w.

(** [quickActions], lines 202-206: the [query] and the [action] of each. *)
Definition quickActions : list (option jsstring * option jsstring) :=
  [ (Some (str "Tell me about your research programs"), None);
    (Some (str "What are your publication opportunities?"), None);
    (None, Some (str "quiz")) ].

(** [handleQuickAction], lines 208-218.  [None]: [setInput(undefined)],
    which no entry of [quickActions] leads to. *)
Definition handleQuickAction (query action : option jsstring) (w : Widget)
  : option Widget :=
  match action with
  | Some a =>
      if jsstring_eqb a (str "quiz") then Some (setShowQuiz true w)
      else option_map (fun q => setInput q w) query
  | None => option_map (fun q => setInput q w) query
  end.

Inductive Response :=
| RAsk (r : Assessment.Fetched AskResponse)
| RTimer.

Inductive Event :=
| ToggleOpen
| SetInput (text : jsstring)
| SendMessage
| ClearChat
| QuickAction (i : nat)
| CloseQuiz                            (* [onClose] of the modal, line 223 *)
| Resume (i : nat) (r : Response).

Definition resume (p : Pending) (r : Response) (w : Widget) : option Widget :=
  match p, r with
  | PAsk, RAsk r => Some (sendMessage_resume r w)
  | TimerReply data, RTimer => Some (showReply data w)
  | _, _ => None
  end.

(** One event; [None] when the control is not rendered or is disabled
    (lines 353 and 377-389), or no such continuation is pending. *)
Definition step (w : Widget) (e : Event) : option (Widget * list jsstring) :=
  match e with
  | ToggleOpen => Some (toggleOpen w, [])
  | SetInput s =>
      if open w && negb (loading w) then Some (setInput s w, []) else None
  | SendMessage => if open w then Some (sendMessage w) else None
  | ClearChat => if open w then Some (clearChat w, []) else None
  | QuickAction i =>
      if open w && (length (messages w) =? 1)%nat && negb (loading w) then
        match quickActions !! i with
        | Some (query, action) =>
            option_map (fun w' => (w', [])) (handleQuickAction query action w)
        | None => None
        end
      else None
  | CloseQuiz => if showQuiz w then Some (setShowQuiz false w, []) else None
  | Resume i r =>
      match pending w !! i with
      | Some p =>
          option_map (fun w' => (w', []))
            (resume p r (setPending (delete i (pending w)) w))
      | None => None
      end
  end.

Inductive reachable : Widget -> Prop :=
| reachable_init : reachable initialWidget
| reachable_step w e w' qs :
    reachable w -> step w e = Some (w', qs) -> reachable w'.

Definition isAsk (p : Pending) : bool :=
  match p with PAsk => true | TimerReply _ => false end.

(** The setters are unfolded and the projections computed. *)
Ltac unfold_chat :=
  unfold await, addMessage, setLoading, setMessages, setInput, setIsTyping,
    setShowQuiz, setPending, setOpen in *;
  simpl in *.

(** The control of an event is rendered and not disabled. *)
Ltac enabled H :=
  match type of H with
  | (if ?c then _ else _) = _ => destruct c eqn:?; [|done]
  end.

(** The loading flag counts the requests in flight, and the typing
    indicator is on only while something is pending. *)
Definition flagsFollowPending (w : Widget) : Prop :=
  length (List.filter isAsk (pending w)) = (if loading w then 1 else 0)%nat
  /\ (isTyping w = true -> pending w <> []).

Fixpoint run (w : Widget) (es : list Event)
  : option (Widget * list jsstring) :=
  match es with
  | [] => Some (w, [])
  | e :: es' =>
      match step w e with
      | Some (w', qs) =>
          match run w' es' with
          | Some (w'', qs') => Some (w'', qs ++ qs')
          | None => None
          end
      | None => None
      end
  end.

Definition chatAfter (es : list Event) : Widget :=
  match run initialWidget es with
  | Some (w, _) => w
  | None => initialWidget
  end.

(** A question is sent and answered; the reply is about to be shown. *)
Definition replyDue : list Event :=
  [ ToggleOpen; SetInput (str "Hi"); SendMessage;
    Resume 0 (RAsk (Assessment.Parsed
                      {| ok := true;
                         data := BodyAnswer (Some (str "Hello")) |})) ].

End ChatWidget.

(** ** Further invariants of the modal quiz *)

Module QuizInvariants.
Import Quiz.

(** The order of the steps: setup, quiz, results. *)
Definition stepRank (s : Step) : nat :=
  match s with Setup => 0 | InQuiz => 1 | Results => 2 end%nat.

(** Once the quiz runs, [sessionId] is the [session_id] of the start
    response kept in [quizData], the selected answer is an index of an
    option of the current question, and the request in flight belongs to
    the step and carries that session. *)
Definition sessionBound (q : PsychometricQuiz) : Prop :=
  (step q = Setup -> selectedAnswer q = None)
  /\ (step q <> Setup ->
      sessionId q = default None (get (quizData q) (str "session_id")))
  /\ (forall a, selectedAnswer q = Some a -> (a < optionCount q)%nat)
  /\ match pending q with
     | [] => True
     | [PStartQuiz] => step q = Setup
     | [PAnswer sid] | [PResults sid] => step q = InQuiz /\ sid = sessionId q
     | _ => False
     end.

(** The guard of the results view (line 386):
    [step === 'results' && results && results.score_data].  It says nothing
    of the body of the view, which reads further fields of [results]
    (lines 393-417) and can still throw on a body of another shape. *)
Definition resultsGuard (q : PsychometricQuiz) : bool :=
  match step q with
  | Results =>
      truthy (results q)
      && truthy (default None (get (results q) (str "score_data")))
  | _ => false
  end.

(** The results step is entered only with results that pass the guard of
    the results view. *)
Definition resultsKept (q : PsychometricQuiz) : Prop :=
  step q = Results -> resultsGuard q = true.

(** A results body, and a run of the modal up to the results. *)
Definition sampleResultsBody : json :=
  JObj [(str "success", JBool true);
        (str "score_data", JObj [(str "aptitude_score", JNum 80)])].

Definition answerChosen : list Event :=
  [ ClickStart; Resume 0 (okResponse sampleStartBody); ClickOption 2 ].

Definition sampleResultsRun : list Event :=
  sampleQuizRun ++ [ Resume 0 (okResponse completedBody);
                     Resume 0 (okResponse sampleResultsBody) ].

End QuizInvariants.

(** ** The string functions on examples *)

Example parseInt_digit : parseInt (str "3") = Some 3.
Proof. reflexivity. Qed.
Example parseInt_trailing : parseInt (str "  -12px") = Some (-12).
Proof. reflexivity. Qed.
Example parseInt_hex : parseInt (str "0x1f") = Some 31.
Proof. reflexivity. Qed.
Example parseInt_nan : parseInt (str "bio") = None.
Proof. reflexivity. Qed.
Example trim_both_ends : trim (str "  a b ") = str "a b".
Proof. reflexivity. Qed.
Example includes_empty : includes (str "biology") [] = true.
Proof. reflexivity. Qed.

(** ** Facts about the chat-driven assessment *)

Module AssessmentFacts.
Import Assessment.

Lemma find_elem_of {A} (f : A -> bool) (l : list A) (x : A) :
  List.find f l = Some x -> x ∈ l /\ f x = true.
Proof.
  intros H. apply find_some in H as [Hin Hf]. split; [|exact Hf].
  by apply list_elem_of_In.
Qed.

Lemma find_is_Some {A} (f : A -> bool) (l : list A) :
  is_Some (List.find f l) <-> exists x, x ∈ l /\ f x = true.
Proof.
  split.
  - intros [x Hx]. exists x. by apply find_elem_of.
  - intros (x & Hin & Hf). destruct (List.find f l) eqn:E; [by eexists|].
    apply list_elem_of_In in Hin.
    pose proof (find_none f l E x Hin) as Hn. congruence.
Qed.

Lemma domains_nonempty d : d ∈ domains -> emptyString d = false.
Proof.
  unfold domains. intros H.
  repeat (apply elem_of_cons in H as [->|H]; [reflexivity|]).
  by apply elem_of_nil in H.
Qed.

Section Resolution.
Variable toLowerCase : jsstring -> jsstring.

Lemma resolveDomain_index input num :
  parseInt input = Some num -> 1 <= num <= 5 ->
  resolveDomain toLowerCase input = domains !! Z.to_nat (num - 1)
  /\ is_Some (domains !! Z.to_nat (num - 1)).
Proof.
  intros Hp [H1 H5]. unfold resolveDomain. rewrite Hp.
  assert ((1 <=? num) && (num <=? Z.of_nat (length domains)) = true) as ->.
  { apply andb_true_iff. split; apply Z.leb_le; simpl; lia. }
  split; [reflexivity|]. apply lookup_lt_is_Some. simpl. lia.
Qed.

Lemma resolveDomain_no_index input :
  leadingIndex input = false ->
  resolveDomain toLowerCase input
  = List.find (matchesDomain toLowerCase input) domains.
Proof.
  unfold leadingIndex, resolveDomain. destruct (parseInt input); [|done].
  change (Z.of_nat (length domains)) with 5. by intros ->.
Qed.

Lemma leadingIndex_spec input :
  leadingIndex input = true <->
  exists num, parseInt input = Some num /\ 1 <= num <= 5.
Proof.
  unfold leadingIndex. destruct (parseInt input) as [n|].
  - rewrite andb_true_iff, !Z.leb_le. split.
    + intros [? ?]. exists n. split; [done|lia].
    + intros (m & [= <-] & ?). lia.
  - split; [done|]. by intros (? & ? & _).
Qed.

Lemma resolveDomain_elem_of input d :
  resolveDomain toLowerCase input = Some d -> d ∈ domains.
Proof.
  destruct (leadingIndex input) eqn:E.
  - apply leadingIndex_spec in E as (n & Hp & Hr).
    destruct (resolveDomain_index input n Hp Hr) as [-> _].
    intros H. by apply list_elem_of_lookup_2 in H.
  - rewrite (resolveDomain_no_index _ E). intros H.
    by apply find_elem_of in H as [? _].
Qed.

Lemma resolveDomain_is_Some input :
  is_Some (resolveDomain toLowerCase input) <->
  leadingIndex input = true
  \/ exists d, d ∈ domains /\ matchesDomain toLowerCase input d = true.
Proof.
  destruct (leadingIndex input) eqn:E.
  - split; [by left|]. intros _.
    apply leadingIndex_spec in E as (n & Hp & Hr).
    by destruct (resolveDomain_index input n Hp Hr) as [-> ?].
  - rewrite (resolveDomain_no_index _ E), find_is_Some.
    split; [by right|]. by intros [?|?].
Qed.

Lemma falsy_resolveDomain input :
  falsy (resolveDomain toLowerCase input) = true <->
  resolveDomain toLowerCase input = None.
Proof.
  destruct (resolveDomain toLowerCase input) as [d|] eqn:E; simpl.
  - apply resolveDomain_elem_of, domains_nonempty in E. rewrite E.
    split; discriminate.
  - done.
Qed.

Lemma handleDomainSelection_unresolved input w :
  resolveDomain toLowerCase input = None ->
  handleDomainSelection toLowerCase input w = (addMessage bot TReprompt w, []).
Proof.
  intros H. unfold handleDomainSelection.
  by rewrite (proj2 (falsy_resolveDomain input) H).
Qed.

End Resolution.

(** C1 (as amended): [handleDomainSelection] resolves the input to one of
    the five fixed domains exactly when [parseInt] reads a number from 1 to
    5 off its start (white space and a sign skipped, text after the digits
    ignored), which selects the domain at that 1-based index, or when,
    failing that, some domain matches as a case-insensitive substring
    (either way round), which selects the first such domain of the list.
    Every other input resolves to none: the handler only appends the
    re-prompt, issues no request, and [sendMessage] leaves the assessment
    state, hence the phase, as it was.  ["3"] resolves to ["Physics"],
    ["bio"] to ["Biology"], ["xyz"] to none. *)
Theorem C1_resolveDomain_amended
    (toLowerCase toUpperCase : jsstring -> jsstring)
    (input : jsstring) (w : Widget) :
  (forall d, resolveDomain toLowerCase input = Some d -> d ∈ domains)
  /\ (is_Some (resolveDomain toLowerCase input) <->
      leadingIndex input = true
      \/ exists d, d ∈ domains /\ matchesDomain toLowerCase input d = true)
  /\ (forall num, parseInt input = Some num -> 1 <= num <= 5 ->
      resolveDomain toLowerCase input = domains !! Z.to_nat (num - 1))
  /\ (leadingIndex input = false ->
      resolveDomain toLowerCase input
      = List.find (matchesDomain toLowerCase input) domains)
  /\ (resolveDomain toLowerCase input = None ->
      handleDomainSelection toLowerCase input w
      = (addMessage bot TReprompt w, [])
      /\ assessmentState (addMessage bot TReprompt w) = assessmentState w
      /\ messages (addMessage bot TReprompt w)
         = messages w ++ [ {| type := bot; text := TReprompt |} ])
  /\ (active (assessmentState w) = true ->
      phase (assessmentState w) = Some DomainSelection ->
      loading w = false ->
      emptyString (trim (Assessment.input w)) = false ->
      resolveDomain toLowerCase (Assessment.input w) = None ->
      sendMessage toLowerCase toUpperCase w
      = Some (setInput [] (addMessage bot TReprompt w), [])
      /\ assessmentState (setInput [] (addMessage bot TReprompt w))
         = assessmentState w)
  /\ resolveDomain asciiLower (str "3") = Some (str "Physics")
  /\ resolveDomain asciiLower (str "bio") = Some (str "Biology")
  /\ resolveDomain asciiLower (str "xyz") = None.
Proof.
  split; [apply resolveDomain_elem_of|].
  split; [apply resolveDomain_is_Some|].
  split; [intros num Hp Hr; apply (resolveDomain_index _ _ _ Hp Hr)|].
  split; [apply resolveDomain_no_index|].
  split.
  { intros H. by rewrite (handleDomainSelection_unresolved _ _ w H). }
  split.
  { intros Ha Hp Hl Hi Hn. unfold sendMessage.
    rewrite Hi, Hl, Ha, Hp. simpl.
    by rewrite (handleDomainSelection_unresolved _ _ w Hn). }
  repeat split; reflexivity.
Qed.

(** C1, the claim as stated fails: ["3abc"] is neither one of the numerals
    1 to 5 nor a substring match with a domain, and it resolves to
    ["Physics"]. *)
Lemma C1_trailing_text_counterexample :
  spec_validDomainInput asciiLower (str "3abc") = false
  /\ resolveDomain asciiLower (str "3abc") = Some (str "Physics").
Proof. split; reflexivity. Qed.

Section Steps.
Variable toLowerCase toUpperCase : jsstring -> jsstring.

#[local] Abbreviation sendMessage := (sendMessage toLowerCase toUpperCase).
#[local] Abbreviation step := (step toLowerCase toUpperCase).
#[local] Abbreviation reachable := (reachable toLowerCase toUpperCase).
#[local] Abbreviation run := (run toLowerCase toUpperCase).

Lemma lookup_current_lt (st : AssessmentState) q :
  questions st !! currentQuestion st = Some q ->
  (currentQuestion st < length (questions st))%nat.
Proof. apply lookup_lt_Some. Qed.

(** What [sendMessage] does with an answer in the mindset phase. *)
Lemma sendMessage_mindset w q :
  active (assessmentState w) = true ->
  phase (assessmentState w) = Some Mindset ->
  loading w = false ->
  emptyString (trim (input w)) = false ->
  questions (assessmentState w) !! currentQuestion (assessmentState w)
  = Some q ->
  exists w',
    sendMessage w = Some (w', [])
    /\ mindsetAnswers (assessmentState w')
       = <[id q := toUpperCase (input w)]> (mindsetAnswers (assessmentState w))
    /\ domainAnswers (assessmentState w') = domainAnswers (assessmentState w)
    /\ questions (assessmentState w') = questions (assessmentState w)
    /\ active (assessmentState w') = true
    /\ loading w' = false
    /\ ((currentQuestion (assessmentState w) + 1
         < length (questions (assessmentState w)))%nat
        /\ phase (assessmentState w') = Some Mindset
        /\ currentQuestion (assessmentState w')
           = (currentQuestion (assessmentState w) + 1)%nat
        \/ (currentQuestion (assessmentState w) + 1
            = length (questions (assessmentState w)))%nat
           /\ phase (assessmentState w') = Some DomainSelection
           /\ currentQuestion (assessmentState w')
              = currentQuestion (assessmentState w)).
Proof.
  intros Ha Hp Hl Hi Hq. pose proof (lookup_current_lt _ _ Hq) as Hlt.
  unfold sendMessage. rewrite Hi, Hl, Ha, Hp. simpl.
  unfold handleMindsetAnswer. rewrite Hq.
  destruct (_ <? _)%nat eqn:E.
  - apply Nat.ltb_lt in E. eexists. split; [reflexivity|].
    unfold_widget. rewrite Ha, Hp, Hl. repeat split; try done. left. done.
  - apply Nat.ltb_ge in E. eexists. split; [reflexivity|].
    unfold_widget. rewrite Ha, Hl. repeat split; try done. right.
    split; [lia|done].
Qed.

(** What [sendMessage] does with an answer in the domain test. *)
Lemma sendMessage_domainTest w q :
  active (assessmentState w) = true ->
  phase (assessmentState w) = Some DomainTest ->
  loading w = false ->
  emptyString (trim (input w)) = false ->
  questions (assessmentState w) !! currentQuestion (assessmentState w)
  = Some q ->
  exists w' rs,
    sendMessage w = Some (w', rs)
    /\ domainAnswers (assessmentState w')
       = <[id q := toUpperCase (input w)]> (domainAnswers (assessmentState w))
    /\ mindsetAnswers (assessmentState w') = mindsetAnswers (assessmentState w)
    /\ questions (assessmentState w') = questions (assessmentState w)
    /\ phase (assessmentState w') = Some DomainTest
    /\ ((currentQuestion (assessmentState w) + 1
         < length (questions (assessmentState w)))%nat
        /\ rs = []
        /\ loading w' = false
        /\ currentQuestion (assessmentState w')
           = (currentQuestion (assessmentState w) + 1)%nat
        \/ (currentQuestion (assessmentState w) + 1
            = length (questions (assessmentState w)))%nat
           /\ rs = [ReqEvaluate (mindsetAnswers (assessmentState w))
                      (selectedDomain (assessmentState w))
                      (<[id q := toUpperCase (input w)]>
                         (domainAnswers (assessmentState w)))]
           /\ loading w' = true
           /\ pending w' = pending w ++ [PEvaluate (assessmentState w)]).
Proof.
  intros Ha Hp Hl Hi Hq. pose proof (lookup_current_lt _ _ Hq) as Hlt.
  unfold sendMessage. rewrite Hi, Hl, Ha, Hp. simpl.
  unfold handleDomainAnswer. rewrite Hq.
  destruct (_ <? _)%nat eqn:E.
  - apply Nat.ltb_lt in E. eexists _, _. split; [reflexivity|].
    unfold_widget. rewrite Hp, Hl. repeat split; try done. left. done.
  - apply Nat.ltb_ge in E. eexists _, _. split; [reflexivity|].
    unfold_widget. rewrite Hp. repeat split; try done. right.
    split; [lia|done].
Qed.

(** On a blank input, and while the loading flag is set, [sendMessage]
    does nothing. *)
Lemma sendMessage_returns_early w :
  emptyString (trim (input w)) || loading w = true ->
  sendMessage w = Some (w, []).
Proof. intros H. unfold sendMessage. by rewrite H. Qed.



(** *** The index stays in range *)

Lemma indexInRange_initial : indexInRange initialAssessmentState.
Proof. by left. Qed.

Lemma indexInRange_fresh qs st :
  questions st = qs -> currentQuestion st = 0%nat -> indexInRange st.
Proof.
  intros Hq Hc. unfold indexInRange. rewrite Hq, Hc.
  destruct qs; [by left|right; simpl; lia].
Qed.

Lemma sendMessage_indexInRange w w' rs :
  sendMessage w = Some (w', rs) ->
  indexInRange (assessmentState w) -> indexInRange (assessmentState w').
Proof.
  unfold sendMessage, handleMindsetAnswer, handleDomainAnswer,
    handleDomainSelection, submitCompleteAssessment, indexInRange.
  intros H Hinv.
  repeat case_match; simplify_eq; unfold_widget; try done;
    match goal with
    | H : _ !! _ = Some _ |- _ => apply lookup_lt_Some in H
    end;
    match goal with
    | H : (_ <? _)%nat = true |- _ => apply Nat.ltb_lt in H; right; lia
    | _ => by right
    end.
Qed.

Lemma resume_indexInRange p r w w' rs :
  resume p r w = Some (w', rs) ->
  indexInRange (assessmentState w) -> indexInRange (assessmentState w').
Proof.
  unfold resume, startAssessment_resume, showDomainSelection_resume,
    handleDomainSelection_resume, submitCompleteAssessment_resume,
    sendMessage_resume, askQuestion, showDomainSelection.
  intros H Hinv.
  repeat case_match; simplify_eq; unfold_widget; try done;
    solve [ by left | by eapply indexInRange_fresh ].
Qed.

Lemma step_indexInRange w e w' rs :
  step w e = Some (w', rs) ->
  indexInRange (assessmentState w) -> indexInRange (assessmentState w').
Proof.
  destruct e; simpl; intros H Hinv.
  - by simplify_eq.
  - case_match; by simplify_eq.
  - case_match; [|done]. destruct (sendMessage w) as [[w1 rs1]|] eqn:E.
    + simplify_eq. by eapply sendMessage_indexInRange.
    + by simplify_eq.
  - case_match; simplify_eq. by left.
  - unfold startAssessment in H. case_match; by simplify_eq.
  - destruct (pending w !! i) eqn:E; [|done].
    by eapply resume_indexInRange in H.
Qed.

Lemma reachable_indexInRange w :
  reachable w -> indexInRange (assessmentState w).
Proof.
  induction 1 as [|w e w' rs _ IH Hstep].
  - apply indexInRange_initial.
  - by eapply step_indexInRange.
Qed.

Lemma run_reachable es : forall w w' rs,
  reachable w -> run w es = Some (w', rs) -> reachable w'.
Proof.
  induction es as [|e es IH]; simpl; intros w w' rs Hw H.
  - by simplify_eq.
  - destruct (step w e) as [[w1 rs1]|] eqn:E; [|done].
    destruct (run w1 es) as [[w2 rs2]|] eqn:E2; [|done]. simplify_eq.
    eapply IH; [|exact E2]. by eapply reachable_step.
Qed.


(** *** The answer maps hold upper-cased inputs *)

#[local] Abbreviation answersFromInputs := (answersFromInputs toUpperCase).
#[local] Abbreviation stateAnswersFromInputs :=
  (stateAnswersFromInputs toUpperCase).
#[local] Abbreviation pendingAnswersFromInputs :=
  (pendingAnswersFromInputs toUpperCase).
#[local] Abbreviation widgetAnswersFromInputs :=
  (widgetAnswersFromInputs toUpperCase).

Lemma answersFromInputs_empty : answersFromInputs ∅.
Proof. apply map_Forall_empty. Qed.

Lemma answersFromInputs_insert (k answer : jsstring)
    (m : gmap jsstring jsstring) :
  emptyString (trim answer) = false ->
  answersFromInputs m ->
  answersFromInputs (<[k := toUpperCase answer]> m).
Proof. intros Hi Hm. apply map_Forall_insert_2; [by exists answer|done]. Qed.

Lemma stateAnswersFromInputs_initial :
  stateAnswersFromInputs initialAssessmentState.
Proof. split; apply answersFromInputs_empty. Qed.

Lemma Forall_snoc_pending (ps : list Pending) p :
  Forall pendingAnswersFromInputs ps -> pendingAnswersFromInputs p ->
  Forall pendingAnswersFromInputs (ps ++ [p]).
Proof. intros. apply Forall_app. split; [done|]. by constructor. Qed.

Lemma sendMessage_answersFromInputs w w' rs :
  sendMessage w = Some (w', rs) ->
  widgetAnswersFromInputs w -> widgetAnswersFromInputs w'.
Proof.
  unfold sendMessage. intros H [[Hm Hd] Hp].
  destruct (emptyString (trim (input w))) eqn:Hi; simpl in H;
    [by simplify_eq|].
  unfold handleMindsetAnswer, handleDomainAnswer, handleDomainSelection,
    submitCompleteAssessment in H.
  repeat case_match; simplify_eq; unfold_widget;
    (split; [split|]); simpl;
    try done;
    try (by apply answersFromInputs_insert);
    apply Forall_snoc_pending; done.
Qed.

Lemma resume_answersFromInputs p r w w' rs :
  resume p r w = Some (w', rs) ->
  pendingAnswersFromInputs p ->
  widgetAnswersFromInputs w -> widgetAnswersFromInputs w'.
Proof.
  unfold resume, startAssessment_resume, showDomainSelection_resume,
    handleDomainSelection_resume, submitCompleteAssessment_resume,
    sendMessage_resume, askQuestion, showDomainSelection.
  intros H Hc [[Hm Hd] Hp].
  repeat case_match; simplify_eq; unfold_widget;
    (split; [split|]); simpl;
    try done;
    try apply answersFromInputs_empty;
    try (by destruct Hc);
    apply Forall_snoc_pending; done.
Qed.

Lemma step_answersFromInputs w e w' rs :
  step w e = Some (w', rs) ->
  widgetAnswersFromInputs w -> widgetAnswersFromInputs w'.
Proof.
  destruct e; simpl; intros H Hinv.
  - by simplify_eq.
  - case_match; by simplify_eq.
  - case_match; [|done]. destruct (sendMessage w) as [[w1 rs1]|] eqn:E.
    + simplify_eq. by eapply sendMessage_answersFromInputs.
    + by simplify_eq.
  - case_match; simplify_eq. destruct Hinv as [_ Hp].
    split; [apply stateAnswersFromInputs_initial|done].
  - unfold startAssessment in H. case_match; simplify_eq.
    destruct Hinv as [Hs Hp]. split; [done|].
    by apply Forall_snoc_pending.
  - destruct (pending w !! i) as [p|] eqn:E; [|done].
    destruct Hinv as [Hs Hp].
    eapply resume_answersFromInputs; [exact H| |].
    + by eapply Forall_lookup_1 in Hp.
    + split; [done|]. by apply Forall_delete.
Qed.

Lemma reachable_answersFromInputs w :
  reachable w -> widgetAnswersFromInputs w.
Proof.
  induction 1 as [|w e w' rs _ IH Hstep].
  - split; [apply stateAnswersFromInputs_initial|constructor].
  - by eapply step_answersFromInputs.
Qed.

(** *** The keys of the answer maps are question ids *)

Lemma keysAreQuestionIds_empty st :
  mindsetAnswers st = ∅ -> domainAnswers st = ∅ -> keysAreQuestionIds st.
Proof.
  intros Hm Hd. split; [intros _|]; intros k [v Hk];
    rewrite ?Hm, ?Hd in Hk; by rewrite lookup_empty in Hk.
Qed.

Lemma keys_insert (qs : list Question) (q : Question) (k v : jsstring)
    (m : gmap jsstring jsstring) (i : nat) :
  qs !! i = Some q ->
  (forall k, is_Some (m !! k) -> exists q, q ∈ qs /\ id q = k) ->
  is_Some (<[id q := v]> m !! k) -> exists q, q ∈ qs /\ id q = k.
Proof.
  intros Hq Hm Hk. destruct (decide (id q = k)) as [<-|Hne].
  - exists q. split; [|done]. by eapply list_elem_of_lookup_2.
  - rewrite lookup_insert_ne in Hk by done. by apply Hm.
Qed.

Lemma sendMessage_keysAreQuestionIds w w' rs :
  sendMessage w = Some (w', rs) ->
  keysAreQuestionIds (assessmentState w) ->
  keysAreQuestionIds (assessmentState w').
Proof.
  unfold sendMessage, handleMindsetAnswer, handleDomainAnswer,
    handleDomainSelection, submitCompleteAssessment, keysAreQuestionIds.
  intros H [Hm Hd].
  repeat case_match; simplify_eq; unfold_widget; try done;
    (split; [intros Hph|]); intros k Hk; try done;
    try (by apply Hd); try (by apply Hm);
    try (eapply keys_insert; [eassumption| |exact Hk]; first [done|apply Hm; congruence]).
Qed.

Lemma resume_keysAreQuestionIds p r w w' rs :
  resume p r w = Some (w', rs) ->
  keysAreQuestionIds (assessmentState w) ->
  keysAreQuestionIds (assessmentState w').
Proof.
  unfold resume, startAssessment_resume, showDomainSelection_resume,
    handleDomainSelection_resume, submitCompleteAssessment_resume,
    sendMessage_resume, askQuestion, showDomainSelection.
  intros H Hinv.
  repeat case_match; simplify_eq; unfold_widget; try done;
    try (by apply keysAreQuestionIds_empty).
  unfold keysAreQuestionIds; simpl.
  split; [done|]. intros k [v Hk]. by rewrite lookup_empty in Hk.
Qed.

Lemma step_keysAreQuestionIds w e w' rs :
  step w e = Some (w', rs) ->
  keysAreQuestionIds (assessmentState w) ->
  keysAreQuestionIds (assessmentState w').
Proof.
  destruct e; simpl; intros H Hinv.
  - by simplify_eq.
  - case_match; by simplify_eq.
  - case_match; [|done]. destruct (sendMessage w) as [[w1 rs1]|] eqn:E.
    + simplify_eq. by eapply sendMessage_keysAreQuestionIds.
    + by simplify_eq.
  - case_match; simplify_eq. by apply keysAreQuestionIds_empty.
  - unfold startAssessment in H. case_match; by simplify_eq.
  - destruct (pending w !! i) eqn:E; [|done].
    by eapply resume_keysAreQuestionIds in H.
Qed.

Lemma reachable_keysAreQuestionIds w :
  reachable w -> keysAreQuestionIds (assessmentState w).
Proof.
  induction 1 as [|w e w' rs _ IH Hstep].
  - by apply keysAreQuestionIds_empty.
  - by eapply step_keysAreQuestionIds.
Qed.

End Steps.

(** ** The claims about the chat-driven assessment *)

Lemma stateAfter_reachable es :
  reachable asciiLower asciiUpper (stateAfter es).
Proof.
  unfold stateAfter.
  destruct (run asciiLower asciiUpper initialWidget es)
    as [[w rs]|] eqn:E; [|constructor].
  eapply run_reachable; [constructor|exact E].
Qed.

(** C2, amended: in a reachable state of an active assessment with a
    non-empty question list the current index is below the length of the
    list; an answer sent at an earlier index advances the index by one and
    keeps the phase; an answer sent at the last index moves the mindset
    phase to the domain selection; in the domain test it leaves the phase
    and the index as they are, sets the loading flag and issues one evaluate
    request with the answers, after which [sendMessage] returns early for as
    long as the loading flag is set, and the resumed
    [submitCompleteAssessment] resets the state. *)
Theorem C2_question_index_amended
    (toLowerCase toUpperCase : jsstring -> jsstring) (w : Widget)
    (Hreach : reachable toLowerCase toUpperCase w)
    (Hactive : active (assessmentState w) = true)
    (Hquestions : questions (assessmentState w) <> []) :
  let st := assessmentState w in
  (currentQuestion st < length (questions st))%nat
  /\ (phase st = Some Mindset -> loading w = false ->
      emptyString (trim (input w)) = false ->
      exists w',
        sendMessage toLowerCase toUpperCase w = Some (w', [])
        /\ ((currentQuestion st + 1 < length (questions st))%nat
            /\ phase (assessmentState w') = Some Mindset
            /\ currentQuestion (assessmentState w')
               = (currentQuestion st + 1)%nat
            \/ (currentQuestion st + 1 = length (questions st))%nat
               /\ phase (assessmentState w') = Some DomainSelection))
  /\ (phase st = Some DomainTest -> loading w = false ->
      emptyString (trim (input w)) = false ->
      exists w' rs,
        sendMessage toLowerCase toUpperCase w = Some (w', rs)
        /\ ((currentQuestion st + 1 < length (questions st))%nat
            /\ rs = []
            /\ phase (assessmentState w') = Some DomainTest
            /\ currentQuestion (assessmentState w')
               = (currentQuestion st + 1)%nat
            \/ (currentQuestion st + 1 = length (questions st))%nat
               /\ (exists q,
                      questions st !! currentQuestion st = Some q
                      /\ rs = [ReqEvaluate (mindsetAnswers st)
                                 (selectedDomain st)
                                 (<[id q := toUpperCase (input w)]>
                                    (domainAnswers st))])
               /\ phase (assessmentState w') = Some DomainTest
               /\ currentQuestion (assessmentState w') = currentQuestion st
               /\ loading w' = true
               /\ pending w' = pending w ++ [PEvaluate st]
               /\ (forall s,
                      sendMessage toLowerCase toUpperCase (setInput s w')
                      = Some (setInput s w', []))
               /\ (forall r w'',
                      assessmentState
                        (submitCompleteAssessment_resume st r w'')
                      = initialAssessmentState))).
Proof.
  intros st.
  assert (currentQuestion st < length (questions st))%nat as Hlt.
  { destruct (reachable_indexInRange _ _ _ Hreach) as [He|Hlt]; done. }
  destruct (lookup_lt_is_Some_2 _ _ Hlt) as [q Hq].
  split; [exact Hlt|]. split.
  - intros Hp Hl Hi.
    destruct (sendMessage_mindset toLowerCase toUpperCase w q
                Hactive Hp Hl Hi Hq)
      as (w' & Hs & _ & _ & _ & _ & _ & Hcase).
    exists w'. split; [exact Hs|].
    destruct Hcase as [(? & ? & ?)|(? & ? & ?)]; [left|right]; done.
  - intros Hp Hl Hi.
    destruct (sendMessage_domainTest toLowerCase toUpperCase w q
                Hactive Hp Hl Hi Hq)
      as (w' & rs & Hs & _ & _ & _ & Hp' & Hcase).
    exists w', rs. split; [exact Hs|].
    destruct Hcase as [(? & ? & ? & ?)|(Hlast & -> & Hl' & Hpend)];
      [left; done|right].
    split; [done|]. split; [by exists q|]. split; [done|]. split.
    { subst st. unfold sendMessage in Hs. rewrite Hi, Hl, Hactive, Hp in Hs.
      simpl in Hs. unfold handleDomainAnswer in Hs. rewrite Hq in Hs.
      assert ((currentQuestion (assessmentState w) + 1
               <? length (questions (assessmentState w)))%nat = false)
        as Hge by (apply Nat.ltb_ge; lia).
      rewrite Hge in Hs. simpl in Hs. simplify_eq.
      unfold submitCompleteAssessment. unfold_widget. done. }
    split; [done|]. split; [done|]. split.
    + intros s. apply sendMessage_returns_early. simpl.
      rewrite Hl'. apply orb_true_r.
    + done.
Qed.

(** C2, at the last question of the domain test of a sample run: the
    index is in range, and the answer issues the evaluate request. *)
Lemma C2_question_index_witness :
  let w := stateAfter lastDomainAnswerTyped in
  (currentQuestion (assessmentState w)
   < length (questions (assessmentState w)))%nat
  /\ exists w' m d a,
       sendMessage asciiLower asciiUpper w = Some (w', [ReqEvaluate m d a]).
Proof.
  destruct (C2_question_index_amended asciiLower asciiUpper
              (stateAfter lastDomainAnswerTyped)
              (stateAfter_reachable _) eq_refl ltac:(discriminate))
    as (Hlt & _ & Htest).
  split; [exact Hlt|].
  destruct (Htest eq_refl eq_refl eq_refl) as (w' & rs & Hs & Hcase).
  destruct Hcase as [(Hearlier & _)|(_ & (q & _ & ->) & _)].
  - vm_compute in Hearlier. lia.
  - eexists _, _, _, _. exact Hs.
Defined.

(** C2, the claim as stated fails.  The last answer of the domain test
    does not change the phase: there is no phase after the domain test, and
    the phase and the index stay as they are until the evaluation's
    continuation resets the state.  Nor is the step taken once in every
    run: when the [/domains] response arrives while the evaluation is in
    flight, its [finally] clears the loading flag, the last index is
    answered again and a second evaluate request is issued. *)
Lemma C2_repeated_evaluation_counterexample :
  reachable asciiLower asciiUpper (stateAfter evaluationRequested)
  /\ phase (assessmentState (stateAfter lastDomainAnswerTyped))
     = Some DomainTest
  /\ (currentQuestion (assessmentState (stateAfter lastDomainAnswerTyped))
      + 1)%nat
     = length (questions (assessmentState (stateAfter lastDomainAnswerTyped)))
  /\ List.map AssessmentInvariants.isEvaluate
       (AssessmentInvariants.requestsOf evaluationRequested)
     = [false; false; false; true]
  /\ phase (assessmentState (stateAfter evaluationRequested))
     = Some DomainTest
  /\ currentQuestion (assessmentState (stateAfter evaluationRequested))
     = currentQuestion (assessmentState (stateAfter lastDomainAnswerTyped))
  /\ reachable asciiLower asciiUpper
       (stateAfter AssessmentInvariants.evaluationRepeated)
  /\ List.map AssessmentInvariants.isEvaluate
       (AssessmentInvariants.requestsOf
          AssessmentInvariants.evaluationRepeated)
     = [false; false; false; true; true].
Proof.
  split; [apply stateAfter_reachable|].
  do 5 (split; [by vm_compute|]).
  split; [apply stateAfter_reachable|by vm_compute].
Qed.

(** C3: in the mindset phase an answer sent below the last index keeps
    the phase, advances the index by one and records the upper-cased answer
    under the id of the current question; sent at the last index it records
    the answer and moves the phase to the domain selection. *)
Theorem C3_mindset_answer
    (toLowerCase toUpperCase : jsstring -> jsstring) (w : Widget)
    (q : Question)
    (Hactive : active (assessmentState w) = true)
    (Hphase : phase (assessmentState w) = Some Mindset)
    (Hidle : loading w = false)
    (Hinput : emptyString (trim (input w)) = false)
    (Hq : questions (assessmentState w) !! currentQuestion (assessmentState w)
          = Some q) :
  let st := assessmentState w in
  exists w',
    handleMindsetAnswer toUpperCase (input w) w = Some w'
    /\ sendMessage toLowerCase toUpperCase w = Some (setInput [] w', [])
    /\ mindsetAnswers (assessmentState w')
       = <[id q := toUpperCase (input w)]> (mindsetAnswers st)
    /\ mindsetAnswers (assessmentState w') !! id q
       = Some (toUpperCase (input w))
    /\ questions (assessmentState w') = questions st
    /\ ((currentQuestion st + 1 < length (questions st))%nat ->
        phase (assessmentState w') = Some Mindset
        /\ currentQuestion (assessmentState w')
           = (currentQuestion st + 1)%nat)
    /\ ((currentQuestion st + 1 = length (questions st))%nat ->
        phase (assessmentState w') = Some DomainSelection).
Proof.
  intros st.
  destruct (sendMessage_mindset toLowerCase toUpperCase w q
              Hactive Hphase Hidle Hinput Hq)
    as (w' & Hs & Hm & _ & Hqs & _ & _ & Hcase).
  pose proof Hs as Hsend.
  unfold sendMessage in Hs. rewrite Hinput, Hidle, Hactive, Hphase in Hs.
  simpl in Hs.
  destruct (handleMindsetAnswer _ _ _) as [w1|] eqn:Hh; simplify_eq/=.
  exists w1. split; [done|]. split; [exact Hsend|].
  split; [exact Hm|]. split; [by rewrite Hm, lookup_insert_eq|].
  split; [exact Hqs|]. subst st.
  split; intros Hlt; destruct Hcase as [(? & ? & ?)|(? & ? & ?)];
    first [lia|by split|done].
Qed.

(** C3, at the first mindset question of a sample run, answered ["b"]. *)
Lemma C3_mindset_answer_witness :
  exists w',
    sendMessage asciiLower asciiUpper (stateAfter (firstAnswerTyped (str "b")))
    = Some (w', [])
    /\ mindsetAnswers (assessmentState w') !! str "m1" = Some (str "B")
    /\ phase (assessmentState w') = Some Mindset
    /\ currentQuestion (assessmentState w') = 1%nat.
Proof.
  destruct (C3_mindset_answer asciiLower asciiUpper
              (stateAfter (firstAnswerTyped (str "b")))
              {| id := str "m1";
                 question := str "How do you approach a problem?";
                 options := None |}
              eq_refl eq_refl eq_refl eq_refl eq_refl)
    as (w' & _ & Hs & _ & Hl & _ & Hearlier & _).
  exists (setInput [] w'). split; [exact Hs|]. split; [exact Hl|].
  apply Hearlier. vm_compute. lia.
Defined.

(** C4 (as amended): when the request of [startAssessment], of
    [showDomainSelection] or of [handleDomainSelection] fails, the
    assessment state is the one before the operation, the loading flag is
    cleared and one error message is appended.  When the request of
    [submitCompleteAssessment] fails, the loading flag is cleared and one
    error message is appended as well, but the assessment state is reset to
    its initial values. *)
Theorem C4_failed_request_amended
    (toLowerCase : jsstring -> jsstring) (w : Widget)
    (captured : AssessmentState) (selected choice : jsstring)
    (domainAnswers : gmap jsstring jsstring) :
  (assessmentState (fst (startAssessment w)) = assessmentState w
   /\ assessmentState (startAssessment_resume Failed w) = assessmentState w
   /\ loading (startAssessment_resume Failed w) = false
   /\ messages (startAssessment_resume Failed w)
      = messages w ++ [ {| type := bot; text := TLoadError |} ]
   /\ assessmentState (startAssessment_resume Failed (fst (startAssessment w)))
      = assessmentState w)
  /\ (assessmentState (fst (showDomainSelection w)) = assessmentState w
      /\ assessmentState (showDomainSelection_resume Failed w)
         = assessmentState w
      /\ loading (showDomainSelection_resume Failed w) = false
      /\ messages (showDomainSelection_resume Failed w)
         = messages w ++ [ {| type := bot; text := TDomainsError |} ])
  /\ (assessmentState (fst (handleDomainSelection toLowerCase choice w))
      = assessmentState w
      /\ assessmentState
           (handleDomainSelection_resume captured selected Failed w)
         = assessmentState w
      /\ loading (handleDomainSelection_resume captured selected Failed w)
         = false
      /\ messages (handleDomainSelection_resume captured selected Failed w)
         = messages w
           ++ [ {| type := bot; text := TDomainQuestionsError |} ]
      /\ assessmentState
           (handleDomainSelection_resume (assessmentState w) selected Failed
              (fst (handleDomainSelection toLowerCase choice w)))
         = assessmentState w)
  /\ (assessmentState
        (fst (submitCompleteAssessment captured domainAnswers w))
      = assessmentState w
      /\ assessmentState (submitCompleteAssessment_resume captured Failed w)
         = initialAssessmentState
      /\ loading (submitCompleteAssessment_resume captured Failed w) = false
      /\ messages (submitCompleteAssessment_resume captured Failed w)
         = messages w ++ [ {| type := bot; text := TEvalError |} ]).
Proof.
  repeat split; try reflexivity;
    unfold handleDomainSelection; by case_match.
Qed.

(** C4, the claim as stated fails for the evaluation: in the sample run
    the assessment is active and holds the answers when the evaluate
    request is in flight; when that request fails the assessment state is
    the initial one, not the one before. *)
Lemma C4_failed_evaluation_counterexample :
  exists before after,
    before = stateAfter evaluationRequested
    /\ pending before
       = [PEvaluate (assessmentState (stateAfter lastDomainAnswerTyped))]
    /\ step asciiLower asciiUpper before (Resume 0 (REvaluate Failed))
       = Some (after, [])
    /\ active (assessmentState before) = true
    /\ mindsetAnswers (assessmentState before) !! str "m1" = Some (str "A")
    /\ assessmentState after = initialAssessmentState
    /\ loading after = false
    /\ assessmentState after <> assessmentState before.
Proof.
  eexists _, _. split; [reflexivity|]. split; [by vm_compute|].
  split; [by vm_compute|]. split; [by vm_compute|]. split; [by vm_compute|].
  split; [by vm_compute|]. split; [by vm_compute|].
  intros H. apply (f_equal active) in H. vm_compute in H. discriminate.
Qed.

(** C6: whatever the state, [clearChat] leaves the assessment state at
    its initial values (inactive, no phase, index 0, no questions, empty
    answer maps, no selected domain) and the message list at the one
    greeting of line 860; the two do not depend on the state it was called
    in. *)
Theorem C6_clearChat_resets
    (toLowerCase toUpperCase : jsstring -> jsstring) (w w2 : Widget) :
  assessmentState (clearChat w)
  = {| active := false; phase := None; currentQuestion := 0%nat;
       questions := []; answers := ∅; selectedDomain := None;
       mindsetAnswers := ∅; domainAnswers := ∅ |}
  /\ assessmentState (clearChat w) = assessmentState initialWidget
  /\ messages (clearChat w) = [ {| type := bot; text := TClearGreeting |} ]
  /\ assessmentState (clearChat w) = assessmentState (clearChat w2)
  /\ messages (clearChat w) = messages (clearChat w2)
  /\ (step toLowerCase toUpperCase w ClearChat = None
      \/ step toLowerCase toUpperCase w ClearChat = Some (clearChat w, [])).
Proof.
  repeat split; try reflexivity. simpl. destruct (open w); [by right|by left].
Qed.

(** C9 (as amended): in a reachable state every value of [mindsetAnswers]
    and of [domainAnswers] is the upper-cased text of an input that was not
    blank; every key of [domainAnswers] is the id of a question of the
    current list, and so is every key of [mindsetAnswers] until the domain
    questions replace the mindset questions. *)
Theorem C9_answers_amended
    (toLowerCase toUpperCase : jsstring -> jsstring) (w : Widget)
    (Hreach : reachable toLowerCase toUpperCase w) :
  let st := assessmentState w in
  (forall k v, mindsetAnswers st !! k = Some v ->
     exists s, emptyString (trim s) = false /\ v = toUpperCase s)
  /\ (forall k v, domainAnswers st !! k = Some v ->
        exists s, emptyString (trim s) = false /\ v = toUpperCase s)
  /\ (forall k, is_Some (domainAnswers st !! k) ->
        exists q, q ∈ questions st /\ id q = k)
  /\ (phase st <> Some DomainTest ->
      forall k, is_Some (mindsetAnswers st !! k) ->
        exists q, q ∈ questions st /\ id q = k).
Proof.
  intros st.
  destruct (reachable_answersFromInputs _ _ _ Hreach) as [[Hm Hd] _].
  destruct (reachable_keysAreQuestionIds _ _ _ Hreach) as [Hkm Hkd].
  split; [exact Hm|]. split; [exact Hd|]. split; [exact Hkd|exact Hkm].
Qed.

(** C9, at a sample run in which both mindset questions were answered. *)
Lemma C9_answers_witness :
  exists s, emptyString (trim s) = false /\ str "B" = asciiUpper s.
Proof.
  apply (proj1 (C9_answers_amended asciiLower asciiUpper
                  (stateAfter (domainChoiceTyped (str "3")))
                  (stateAfter_reachable _)) (str "m2") (str "B")).
  by vm_compute.
Defined.

(** C9, the claim as stated fails: the reply ["hello"] to the first
    mindset question is stored as ["HELLO"], which is no option letter. *)
Lemma C9_any_text_counterexample :
  exists w,
    reachable asciiLower asciiUpper w
    /\ mindsetAnswers (assessmentState w) !! str "m1" = Some (str "HELLO")
    /\ spec_isOptionLetter (str "HELLO") = false.
Proof.
  exists (stateAfter (firstAnswerTyped (str "hello") ++ [SendMessage])).
  split; [apply stateAfter_reachable|]. split; by vm_compute.
Qed.

(** When [submitCompleteAssessment] resumes, with the evaluation or with a
    failure, the assessment state is reset to its initial values and the
    loading flag is cleared; whatever is sent next issues no evaluate
    request. *)
Lemma submitCompleteAssessment_resume_resets
    (toLowerCase toUpperCase : jsstring -> jsstring)
    (captured : AssessmentState) (r : Fetched EvalResult) (w : Widget) :
  let w' := submitCompleteAssessment_resume captured r w in
  assessmentState w'
  = {| active := false; phase := None; currentQuestion := 0%nat;
       questions := []; answers := ∅; selectedDomain := None;
       mindsetAnswers := ∅; domainAnswers := ∅ |}
  /\ loading w' = false
  /\ (exists t, messages w' = messages w ++ [ {| type := bot; text := t |} ])
  /\ (forall s,
        sendMessage toLowerCase toUpperCase (setInput s w')
        = Some (setInput s w', [])
        \/ exists w'',
             sendMessage toLowerCase toUpperCase (setInput s w')
             = Some (w'', [ReqAsk (trim s)])).
Proof.
  intros w'. split; [reflexivity|]. split; [reflexivity|]. split.
  { subst w'. destruct r; by eexists. }
  intros s. unfold sendMessage. simpl.
  destruct (emptyString (trim s)); simpl; [by left|right; by eexists].
Qed.

(** C10, at a run in which the code breaks it.  The domain is chosen
    before the timer of [showDomainSelection] fires and once more after the
    [/domains] response has cleared the loading flag, so that two requests
    for domain questions are in flight.  The domain test started by the
    first response is answered and its evaluation fails:
    [submitCompleteAssessment] resets the state and shows its error.  Then
    the second response arrives, and the continuation of
    [handleDomainSelection] writes back the state its closure captured
    (lines 668-675), mindset answers included; the domain test is answered
    again and a second evaluate request carries the answers of the run that
    had ended. *)
Theorem C10_answers_resubmitted :
  let failed := stateAfter AssessmentInvariants.evaluationFailed in
  let revived :=
    stateAfter (AssessmentInvariants.evaluationFailed
                ++ [Resume 0 sampleDomainTest]) in
  let mindset : gmap jsstring jsstring :=
    <[str "m1" := str "A"]> (<[str "m2" := str "B"]> ∅) in
  let domain : gmap jsstring jsstring :=
    <[str "d1" := str "C"]> (<[str "d2" := str "D"]> ∅) in
  reachable asciiLower asciiUpper failed
  /\ List.filter AssessmentInvariants.isEvaluate
       (AssessmentInvariants.requestsOf AssessmentInvariants.evaluationFailed)
     = [ReqEvaluate mindset (Some (str "Physics")) domain]
  /\ assessmentState failed = initialAssessmentState
  /\ loading failed = false
  /\ last (messages failed) = Some {| type := bot; text := TEvalError |}
  /\ active (assessmentState revived) = true
  /\ phase (assessmentState revived) = Some DomainTest
  /\ mindsetAnswers (assessmentState revived) = mindset
  /\ reachable asciiLower asciiUpper
       (stateAfter AssessmentInvariants.answersResubmitted)
  /\ List.filter AssessmentInvariants.isEvaluate
       (AssessmentInvariants.requestsOf
          AssessmentInvariants.answersResubmitted)
     = [ReqEvaluate mindset (Some (str "Physics")) domain;
        ReqEvaluate mindset (Some (str "Physics")) domain].
Proof.
  split; [apply stateAfter_reachable|].
  do 7 (split; [by vm_compute|]).
  split; [apply stateAfter_reachable|by vm_compute].
Qed.

End AssessmentFacts.

(** ** Facts about the modal quiz *)

Module QuizFacts.
Import Quiz.

(** *** One request in flight *)

Lemma startQuiz_resume_loading o q :
  loading (fst (startQuiz_resume o q)) = false
  /\ pending (fst (startQuiz_resume o q)) = pending q.
Proof.
  unfold startQuiz_resume, startQuiz_try.
  repeat case_match; simplify_eq; done.
Qed.

Lemma fetchResults_resume_loading o q :
  loading (fst (fetchResults_resume o q)) = false
  /\ pending (fst (fetchResults_resume o q)) = pending q.
Proof.
  unfold fetchResults_resume, fetchResults_try.
  repeat case_match; simplify_eq; done.
Qed.

Lemma submitAnswer_resume_loading sid o q :
  (loading (fst (submitAnswer_resume sid o q)) = false
   /\ pending (fst (submitAnswer_resume sid o q)) = pending q)
  \/ (loading (fst (submitAnswer_resume sid o q)) = loading q
      /\ pending (fst (submitAnswer_resume sid o q))
         = pending q ++ [PResults sid]).
Proof.
  unfold submitAnswer_resume, submitAnswer_try.
  repeat case_match; simplify_eq; first [by left|by right].
Qed.

Lemma handle_oneInFlight q e q' fx :
  handle q e = Some (q', fx) -> oneInFlight q -> oneInFlight q'.
Proof.
  unfold oneInFlight. destruct e; simpl; intros H Hinv.
  - case_match; by simplify_eq.
  - unfold startQuiz in H. repeat case_match; simplify_eq.
    destruct Hinv as [[Hp _]|(p & _ & ?)]; [|congruence].
    right. exists PStartQuiz. unfold_quiz. by rewrite Hp.
  - case_match; by simplify_eq.
  - unfold submitAnswer in H.
    destruct (quizShown q); [|done].
    destruct (selectedAnswer q) eqn:Ha; [|done].
    destruct (loading q) eqn:Hl; [done|]. simpl in H. simplify_eq.
    destruct Hinv as [[Hp _]|(p & _ & ?)]; [|congruence].
    right. eexists. unfold_quiz. by rewrite Hp.
  - destruct (pending q !! i) as [p|] eqn:E; [|done].
    injection H as H. apply (f_equal fst) in H. simpl in H. subst q'.
    destruct Hinv as [[Hp _]|(p0 & Hp & Hl)]; [by rewrite Hp in E|].
    rewrite Hp in E. destruct i; [|done]. simpl in E. simplify_eq.
    rewrite Hp. simpl. destruct p as [|sid|sid]; simpl.
    + destruct (startQuiz_resume_loading o (setPending [] q)) as [-> ->].
      by left.
    + destruct (submitAnswer_resume_loading sid o (setPending [] q))
        as [[-> ->]|[-> ->]]; [by left|right]. by eexists.
    + destruct (fetchResults_resume_loading o (setPending [] q)) as [-> ->].
      by left.
Qed.

Lemma reachable_oneInFlight q : reachable q -> oneInFlight q.
Proof.
  induction 1 as [|q e q' fx _ IH Hh].
  - by left.
  - by eapply handle_oneInFlight.
Qed.

Lemma quiz_run_reachable es : forall q q' fx,
  reachable q -> run q es = Some (q', fx) -> reachable q'.
Proof.
  induction es as [|e es IH]; simpl; intros q q' fx Hq H.
  - by simplify_eq.
  - destruct (handle q e) as [[q1 fx1]|] eqn:E; [|done].
    destruct (run q1 es) as [[q2 fx2]|] eqn:E2; [|done]. simplify_eq.
    eapply IH; [|exact E2]. by eapply reachable_step.
Qed.

Lemma quizAfter_reachable es : reachable (quizAfter es).
Proof.
  unfold quizAfter. destruct (run initialQuiz es) as [[q fx]|] eqn:E;
    [|constructor].
  eapply quiz_run_reachable; [constructor|exact E].
Qed.


(** *** What a resumed handler issues *)

Lemma startQuiz_resume_cases o q :
  (exists data,
      startQuiz_resume o q
      = ({| step := InQuiz; formData := formData q; quizData := Some data;
            currentQuestion :=
              default None (get (Some data) (str "first_question"));
            selectedAnswer := selectedAnswer q;
            questionNum := Some (JNum 1); results := results q;
            loading := false;
            sessionId := default None (get (Some data) (str "session_id"));
            pending := pending q |}, []))
  \/ exists a, startQuiz_resume o q = (setLoading false q, [Alert a]).
Proof.
  unfold startQuiz_resume, startQuiz_try.
  repeat case_match; simplify_eq;
    first [by right; eexists | left; by eexists].
Qed.

Lemma fetchResults_resume_cases o q :
  (exists resultsData,
      fetchResults_resume o q
      = ({| step := Results; formData := formData q;
            quizData := quizData q; currentQuestion := currentQuestion q;
            selectedAnswer := selectedAnswer q;
            questionNum := questionNum q;
            results := Some resultsData; loading := false;
            sessionId := sessionId q; pending := pending q |}, []))
  \/ exists e,
       fetchResults_resume o q = (setLoading false q, [Alert (SubmitError e)]).
Proof.
  unfold fetchResults_resume, fetchResults_try.
  repeat case_match; simplify_eq;
    first [by right; eexists | left; by eexists].
Qed.

Lemma submitAnswer_resume_results sid o q :
  List.filter isResultsFetch (snd (submitAnswer_resume sid o q))
  = match o with
    | Resolved r =>
        if ok r && match body r with
                   | Some data =>
                       isTrue (default None
                                 (get (Some data) (str "completed")))
                   | None => false
                   end
        then [Fetch (GetResults sid)] else []
    | Rejected => []
    end.
Proof.
  unfold submitAnswer_resume, submitAnswer_try.
  destruct o as [|r]; [reflexivity|].
  destruct (ok r); [|cbn; by destruct (text r)].
  cbn [negb andb]. destruct (body r) as [data|]; [|reflexivity].
  set (c := get (Some data) (str "completed")).
  destruct c as [completed|]; [|reflexivity].
  simpl. destruct (isTrue completed); [reflexivity|].
  by repeat case_match.
Qed.

End QuizFacts.

(** ** The claims about the modal quiz and about both widgets *)


(** The start of the scenario of the specification: session [s1], question
    1 of 5 shown, nothing selected, one request sent. *)
Example quiz_scenario_start :
  exists q,
    Quiz.run Quiz.initialQuiz
      [Quiz.ClickStart; Quiz.Resume 0 (Quiz.okResponse Quiz.sampleStartBody)]
    = Some (q, [Quiz.Fetch (Quiz.PostStart (Quiz.formData Quiz.initialQuiz))])
    /\ Quiz.step q = Quiz.InQuiz
    /\ Quiz.sessionId q = Some (Quiz.JStr (str "s1"))
    /\ Quiz.questionNum q = Some (Quiz.JNum 1)
    /\ Quiz.get (Quiz.quizData q) (str "total_questions")
       = Some (Some (Quiz.JNum 5))
    /\ Quiz.selectedAnswer q = None
    /\ Quiz.loading q = false.
Proof. eexists. repeat split; reflexivity. Qed.

(** C5 (as amended): a resumed [submitAnswer] sends the results request
    once when the answer's response has [completed === true], and not
    otherwise; the results part sends nothing.  Re-entry is barred outside
    the handler: in every state the modal reaches, at most one request is
    in flight, the loading flag is set exactly while one is, and while it
    is set the submit and start buttons are disabled.  In the chat widget
    [sendMessage] returns at once while the loading flag is set. *)
Theorem C5_results_fetched_once_amended
    (toLowerCase toUpperCase : jsstring -> jsstring)
    (q : Quiz.PsychometricQuiz) (Hreach : Quiz.reachable q) :
  (length (Quiz.pending q) <= 1)%nat
  /\ (Quiz.loading q = true <-> Quiz.pending q <> [])
  /\ (Quiz.loading q = true ->
      Quiz.handle q Quiz.ClickSubmit = None
      /\ Quiz.handle q Quiz.ClickStart = None)
  /\ (forall sid o q0,
        List.filter Quiz.isResultsFetch
          (snd (Quiz.submitAnswer_resume sid o q0))
        = match o with
          | Quiz.Resolved r =>
              if Quiz.ok r
                 && match Quiz.body r with
                    | Some data =>
                        Quiz.isTrue
                          (default None
                             (Quiz.get (Some data) (str "completed")))
                    | None => false
                    end
              then [Quiz.Fetch (Quiz.GetResults sid)] else []
          | Quiz.Rejected => []
          end)
  /\ (forall o q0,
        List.filter Quiz.isFetch (snd (Quiz.fetchResults_resume o q0)) = [])
  /\ (forall w,
        Assessment.loading w = true ->
        Assessment.sendMessage toLowerCase toUpperCase w = Some (w, [])).
Proof.
  pose proof (QuizFacts.reachable_oneInFlight q Hreach) as Hgate.
  split.
  { destruct Hgate as [[-> _]|(p & -> & _)]; simpl; lia. }
  split.
  { destruct Hgate as [[-> ->]|(p & -> & ->)]; split; done. }
  split.
  { intros Hl. simpl. rewrite Hl, orb_true_r, andb_false_r.
    split; [done|]. by destruct (Quiz.step q). }
  split; [apply QuizFacts.submitAnswer_resume_results|]. split.
  { intros o q0.
    destruct (QuizFacts.fetchResults_resume_cases o q0) as [[d ->]|[e ->]];
      done. }
  intros w Hl. apply AssessmentFacts.sendMessage_returns_early.
  rewrite Hl. apply orb_true_r.
Qed.

(** C5, in the sample run of the modal: an answer was submitted and its
    request is in flight. *)
Lemma C5_results_fetched_once_witness :
  Quiz.loading (Quiz.quizAfter Quiz.sampleQuizRun) = true
  /\ (length (Quiz.pending (Quiz.quizAfter Quiz.sampleQuizRun)) <= 1)%nat
  /\ Quiz.handle (Quiz.quizAfter Quiz.sampleQuizRun) Quiz.ClickSubmit = None.
Proof.
  pose proof (C5_results_fetched_once_amended asciiLower asciiUpper
                (Quiz.quizAfter Quiz.sampleQuizRun)
                (QuizFacts.quizAfter_reachable _))
    as (Hlen & _ & Hgate & _).
  split; [reflexivity|]. split; [exact Hlen|].
  exact (proj1 (Hgate eq_refl)).
Defined.

(** C5, the claim as stated fails.  [submitAnswer] does not look at the
    loading flag: called while it is set, it sends a second answer request,
    and when both responses say [completed: true] the results are fetched
    twice.  And in the chat widget the timer of [showDomainSelection] does
    not look at it either: when the domain is chosen before the timer
    fires, two requests are in flight together. *)
Lemma C5_handler_reentry_counterexample :
  Quiz.loading Quiz.submittingQuiz = true
  /\ snd (Quiz.submitAnswer Quiz.submittingQuiz)
     = [Quiz.Fetch (Quiz.PostAnswer 2 (Some (Quiz.JNum 5))
                      (Some (Quiz.JStr (str "s1"))))]
  /\ Quiz.pending (fst (Quiz.submitAnswer Quiz.submittingQuiz))
     = [Quiz.PAnswer (Some (Quiz.JStr (str "s1")));
        Quiz.PAnswer (Some (Quiz.JStr (str "s1")))]
  /\ option_map snd
       (Quiz.run (fst (Quiz.submitAnswer Quiz.submittingQuiz))
          [Quiz.Resume 0 (Quiz.okResponse Quiz.completedBody);
           Quiz.Resume 0 (Quiz.okResponse Quiz.completedBody)])
     = Some [Quiz.Fetch (Quiz.GetResults (Some (Quiz.JStr (str "s1"))));
             Quiz.Fetch (Quiz.GetResults (Some (Quiz.JStr (str "s1"))))]
  /\ Assessment.reachable asciiLower asciiUpper
       (Assessment.stateAfter Assessment.domainChosenEarly)
  /\ List.map Assessment.isRequest
       (Assessment.pending
          (Assessment.stateAfter Assessment.domainChosenEarly))
     = [true; true].
Proof.
  split; [reflexivity|]. split; [reflexivity|]. split; [reflexivity|].
  split; [reflexivity|].
  split; [apply AssessmentFacts.stateAfter_reachable|by vm_compute].
Qed.

(** ** [trim] and [parseInt] on their inputs *)

Module StringFacts.

Lemma dropWhile_head {A} (p : A -> bool) (l : list A) x l' :
  dropWhile p l = x :: l' -> p x = false.
Proof.
  induction l as [|a l IH]; simpl; [done|].
  destruct (p a) eqn:E; [exact IH|]. by intros [= <- _].
Qed.

Lemma dropWhile_suffix {A} (p : A -> bool) (l : list A) :
  exists a, l = a ++ dropWhile p l /\ Forall (fun x => p x = true) a.
Proof.
  induction l as [|x l (a & Hl & Ha)]; simpl; [by exists []|].
  destruct (p x) eqn:E.
  - exists (x :: a). split; [by rewrite Hl at 1|]. by constructor.
  - by exists [].
Qed.

(** [trim] takes white space off both ends and nothing else; what is left
    neither starts nor ends with white space. *)
Lemma trim_spec (s : jsstring) :
  (exists a b,
      s = a ++ trim s ++ b
      /\ Forall (fun c => isWhiteSpace c = true) a
      /\ Forall (fun c => isWhiteSpace c = true) b)
  /\ (forall x l, trim s = x :: l -> isWhiteSpace x = false)
  /\ (forall l y, trim s = l ++ [y] -> isWhiteSpace y = false).
Proof.
  unfold trim.
  destruct (dropWhile_suffix isWhiteSpace s) as (a & Hs & Ha).
  destruct (dropWhile_suffix isWhiteSpace (rev (dropWhile isWhiteSpace s)))
    as (b & Hr & Hb).
  set (m := dropWhile isWhiteSpace s) in *.
  set (t := dropWhile isWhiteSpace (rev m)) in *.
  assert (m = rev t ++ rev b) as Hm.
  { rewrite <- rev_app_distr, <- Hr. by rewrite rev_involutive. }
  split; [|split].
  - exists a, (rev b). split; [by rewrite <- Hm|]. split; [done|].
    apply Forall_forall. intros c Hc.
    apply list_elem_of_In, in_rev, list_elem_of_In in Hc.
    by eapply Forall_forall in Hb.
  - intros x l Ht. rewrite Ht in Hm. simpl in Hm.
    by apply (dropWhile_head isWhiteSpace s x (l ++ rev b)).
  - intros l y Ht. apply (f_equal (@rev N)) in Ht.
    rewrite rev_involutive, rev_app_distr in Ht. simpl in Ht.
    by apply (dropWhile_head isWhiteSpace (rev m) y (rev l)).
Qed.

(** An input that starts with a letter of ASCII is no number. *)
Lemma parseInt_letter (c : N) (rest : jsstring) :
  (65 <= c <= 90 \/ 97 <= c <= 122)%N -> parseInt (c :: rest) = None.
Proof.
  intros Hc. unfold parseInt. simpl.
  assert (isWhiteSpace c = false) as ->.
  { unfold isWhiteSpace.
    repeat match goal with
           | |- context [(?a <=? ?b)%N] => destruct (N.leb_spec a b)
           | |- context [(?a =? ?b)%N] => destruct (N.eqb_spec a b)
           end; simpl; try reflexivity; lia. }
  assert ((c =? 45)%N = false) as -> by (apply N.eqb_neq; lia).
  assert ((c =? 43)%N = false) as -> by (apply N.eqb_neq; lia).
  assert ((c =? 48)%N = false) as Hz by (apply N.eqb_neq; lia).
  assert (isDigit 10 c = false) as Hd.
  { unfold isDigit, digitValue.
    repeat match goal with
           | |- context [(?a <=? ?b)%N] => destruct (N.leb_spec a b)
           end; simpl; try reflexivity; try lia.
    - destruct (Z.ltb_spec (Z.of_N c - 87) 10); [lia|done].
    - destruct (Z.ltb_spec (Z.of_N c - 55) 10); [lia|done]. }
  destruct rest as [|cx rest]; simpl; rewrite ?Hz; simpl; by rewrite Hd.
Qed.

Lemma asciiLowerUnit_letter (c l : N) :
  asciiLowerUnit c = l -> (97 <= l <= 122)%N ->
  (65 <= c <= 90 \/ 97 <= c <= 122)%N.
Proof.
  unfold asciiLowerUnit.
  destruct (N.leb_spec 65 c), (N.leb_spec c 90); simpl; lia.
Qed.

End StringFacts.

(** ** More facts about the chat-driven assessment *)

Module AssessmentInvariantFacts.
Import Assessment AssessmentInvariants.

Section Invariants.
Variable toLowerCase toUpperCase : jsstring -> jsstring.

#[local] Abbreviation sendMessage := (sendMessage toLowerCase toUpperCase).
#[local] Abbreviation step := (step toLowerCase toUpperCase).
#[local] Abbreviation reachable := (reachable toLowerCase toUpperCase).

(** *** The phase and the fields *)

Lemma wellPhased_initial : wellPhased initialAssessmentState.
Proof. by split. Qed.

Lemma resolved_domain input :
  falsy (resolveDomain toLowerCase input) = false ->
  default [] (resolveDomain toLowerCase input) ∈ domains.
Proof.
  destruct (resolveDomain toLowerCase input) as [d|] eqn:E; [|done].
  intros _. by eapply AssessmentFacts.resolveDomain_elem_of.
Qed.

Lemma Forall_snoc_wellPhased (ps : list Pending) p :
  Forall pendingWellPhased ps -> pendingWellPhased p ->
  Forall pendingWellPhased (ps ++ [p]).
Proof. intros. apply Forall_app. split; [done|]. by constructor. Qed.

Lemma sendMessage_wellPhased w w' rs :
  sendMessage w = Some (w', rs) ->
  widgetWellPhased w -> widgetWellPhased w'.
Proof.
  unfold sendMessage. intros H [Hw Hp]. pose proof Hw as [Ha Hst].
  destruct (emptyString (trim (input w)) || loading w);
    [simplify_eq; by split|].
  destruct (active (assessmentState w)) eqn:Hact.
  - destruct (phase (assessmentState w)) as [[]|] eqn:Hph.
    + unfold handleMindsetAnswer in H. simpl in Hst.
      repeat case_match; simplify_eq; unfold_widget;
        (split; [unfold wellPhased; simpl; rewrite ?Hph; intuition
                |by apply Forall_snoc_wellPhased]).
    + unfold handleDomainSelection in H.
      destruct (falsy _) eqn:Hf; simpl in H; simplify_eq; unfold_widget;
        [by split|].
      split; [done|]. apply Forall_snoc_wellPhased; [done|].
      simpl. split; [done|]. split; [done|]. by apply resolved_domain.
    + unfold handleDomainAnswer, submitCompleteAssessment in H.
      simpl in Hst.
      repeat case_match; simplify_eq; unfold_widget;
        (split; [unfold wellPhased; simpl; rewrite ?Hph; intuition
                |by apply Forall_snoc_wellPhased]).
    + simplify_eq. by split.
  - simplify_eq. unfold_widget. split; [done|].
    by apply Forall_snoc_wellPhased.
Qed.

Lemma resume_wellPhased p r w w' rs :
  resume p r w = Some (w', rs) ->
  pendingWellPhased p ->
  widgetWellPhased w -> widgetWellPhased w'.
Proof.
  intros H Hc [Hw Hp].
  unfold resume, startAssessment_resume, showDomainSelection_resume,
    handleDomainSelection_resume, submitCompleteAssessment_resume,
    sendMessage_resume, askQuestion, showDomainSelection in H.
  destruct p, r; simplify_eq.
  - destruct r as [|data]; unfold_widget; [by split|].
    split; [by split|by apply Forall_snoc_wellPhased].
  - destruct r; unfold_widget; by split.
  - destruct Hc as ([Hca Hcst] & Hcp & Hd). rewrite Hcp in Hcst.
    destruct Hcst as (Hact & _ & _).
    destruct r as [|data]; unfold_widget; [by split|].
    split; [|by apply Forall_snoc_wellPhased].
    split; [done|]. simpl. split; [done|]. by eexists.
  - unfold_widget. split; [apply wellPhased_initial|].
    by destruct r.
  - repeat case_match; unfold_widget; by split.
  - case_match; unfold_widget; by split.
  - unfold_widget. split; [done|]. by apply Forall_snoc_wellPhased.
Qed.

Lemma step_wellPhased w e w' rs :
  step w e = Some (w', rs) ->
  widgetWellPhased w -> widgetWellPhased w'.
Proof.
  destruct e; simpl; intros H Hinv.
  - by simplify_eq.
  - case_match; by simplify_eq.
  - case_match; [|done]. destruct (sendMessage w) as [[w1 rs1]|] eqn:E.
    + simplify_eq. by eapply sendMessage_wellPhased.
    + by simplify_eq.
  - case_match; simplify_eq. destruct Hinv as [_ Hp].
    split; [apply wellPhased_initial|done].
  - unfold startAssessment in H. case_match; simplify_eq.
    destruct Hinv as [Hs Hp]. split; [done|].
    by apply Forall_snoc_wellPhased.
  - destruct (pending w !! i) as [p|] eqn:E; [|done].
    destruct Hinv as [Hs Hp].
    eapply resume_wellPhased; [exact H| |].
    + by eapply Forall_lookup_1 in Hp.
    + split; [done|]. by apply Forall_delete.
Qed.

Lemma reachable_wellPhased w : reachable w -> widgetWellPhased w.
Proof.
  induction 1 as [|w e w' rs _ IH Hstep].
  - split; [apply wellPhased_initial|constructor].
  - by eapply step_wellPhased.
Qed.


(** *** Every question so far is answered *)

Lemma answered_insert (qs : list Question) (m : gmap jsstring jsstring)
    (q : Question) (v : jsstring) (n : nat) :
  qs !! n = Some q ->
  (forall i q0, (i < n)%nat -> qs !! i = Some q0 -> is_Some (m !! id q0)) ->
  forall i q0, (i < n + 1)%nat -> qs !! i = Some q0 ->
               is_Some (<[id q := v]> m !! id q0).
Proof.
  intros Hq Hm i q0 Hi Hq0. apply lookup_insert_is_Some'.
  destruct (decide (i = n)) as [->|Hne].
  - left. congruence.
  - right. apply (Hm i); [lia|done].
Qed.

Lemma answered_all (qs : list Question) (m : gmap jsstring jsstring)
    (n : nat) :
  (length qs <= n)%nat ->
  (forall i q0, (i < n)%nat -> qs !! i = Some q0 -> is_Some (m !! id q0)) ->
  forall q0, q0 ∈ qs -> is_Some (m !! id q0).
Proof.
  intros Hn Hm q0 Hin. apply list_elem_of_lookup in Hin as [i Hi].
  apply (Hm i); [|done]. apply lookup_lt_Some in Hi. lia.
Qed.

Lemma sendMessage_answeredSoFar w w' rs :
  sendMessage w = Some (w', rs) ->
  answeredSoFar (assessmentState w) -> answeredSoFar (assessmentState w').
Proof.
  unfold sendMessage, answeredSoFar. intros H Hinv.
  destruct (emptyString (trim (input w)) || loading w); [by simplify_eq|].
  destruct (active (assessmentState w)) eqn:Hact; [|by simplify_eq].
  destruct (phase (assessmentState w)) as [[]|] eqn:Hph.
  - unfold handleMindsetAnswer in H.
    destruct (questions _ !! _) as [q|] eqn:Hq; [|done].
    destruct (_ <? _)%nat eqn:E; simplify_eq; unfold_widget.
    + rewrite Hph. by apply answered_insert.
    + apply Nat.ltb_ge in E.
      eapply answered_all; [exact E|]. by apply answered_insert.
  - unfold handleDomainSelection in H.
    destruct (falsy _); simpl in H; simplify_eq; unfold_widget;
      by rewrite Hph.
  - unfold handleDomainAnswer, submitCompleteAssessment in H.
    destruct (questions _ !! _) as [q|] eqn:Hq; [|done].
    destruct (_ <? _)%nat eqn:E; simplify_eq; unfold_widget; rewrite Hph.
    + by apply answered_insert.
    + intros i q0 Hi Hq0. eapply answered_insert; [exact Hq|exact Hinv| |done].
      lia.
  - simplify_eq. unfold_widget. by rewrite Hph.
Qed.

Lemma resume_answeredSoFar p r w w' rs :
  resume p r w = Some (w', rs) ->
  answeredSoFar (assessmentState w) -> answeredSoFar (assessmentState w').
Proof.
  unfold resume, startAssessment_resume, showDomainSelection_resume,
    handleDomainSelection_resume, submitCompleteAssessment_resume,
    sendMessage_resume, askQuestion, showDomainSelection, answeredSoFar.
  intros H Hinv.
  repeat case_match; simplify_eq; unfold_widget; try done;
    first [congruence | intros; lia].
Qed.

Lemma step_answeredSoFar w e w' rs :
  step w e = Some (w', rs) ->
  answeredSoFar (assessmentState w) -> answeredSoFar (assessmentState w').
Proof.
  destruct e; simpl; intros H Hinv.
  - by simplify_eq.
  - case_match; by simplify_eq.
  - case_match; [|done]. destruct (sendMessage w) as [[w1 rs1]|] eqn:E.
    + simplify_eq. by eapply sendMessage_answeredSoFar.
    + by simplify_eq.
  - case_match; by simplify_eq.
  - unfold startAssessment in H. case_match; by simplify_eq.
  - destruct (pending w !! i) eqn:E; [|done].
    by eapply resume_answeredSoFar in H.
Qed.

Lemma reachable_answeredSoFar w :
  reachable w -> answeredSoFar (assessmentState w).
Proof.
  induction 1 as [|w e w' rs _ IH Hstep]; [done|].
  by eapply step_answeredSoFar.
Qed.

(** The requests a step issues: those of [sendMessage], the one of
    [startAssessment], or the one of the timer of [showDomainSelection]. *)
Lemma step_requests w e w' rs r :
  step w e = Some (w', rs) -> r ∈ rs ->
  (e = SendMessage /\ sendMessage w = Some (w', rs))
  \/ r = ReqStart \/ r = ReqDomains.
Proof.
  destruct e; simpl; intros H Hr.
  - simplify_eq. by apply elem_of_nil in Hr.
  - case_match; simplify_eq. by apply elem_of_nil in Hr.
  - case_match; [|done]. destruct (sendMessage w) as [[w1 rs1]|] eqn:E.
    + simplify_eq. by left.
    + simplify_eq. by apply elem_of_nil in Hr.
  - case_match; simplify_eq. by apply elem_of_nil in Hr.
  - unfold startAssessment in H. case_match; simplify_eq.
    apply list_elem_of_singleton in Hr. by right; left.
  - destruct (pending w !! i) as [p|] eqn:E; [|done].
    unfold resume, showDomainSelection in H.
    repeat case_match; simplify_eq;
      try (by apply elem_of_nil in Hr).
    apply list_elem_of_singleton in Hr. by right; right.
Qed.

Lemma sendMessage_requests w w' rs r :
  sendMessage w = Some (w', rs) -> r ∈ rs ->
  (exists t, r = ReqAsk t /\ active (assessmentState w) = false)
  \/ (phase (assessmentState w) = Some DomainSelection
      /\ r = ReqDomainQuestions
               (default [] (resolveDomain toLowerCase (input w)))
      /\ falsy (resolveDomain toLowerCase (input w)) = false)
  \/ (phase (assessmentState w) = Some DomainTest
      /\ exists q,
           questions (assessmentState w)
             !! currentQuestion (assessmentState w) = Some q
           /\ (length (questions (assessmentState w))
               <= currentQuestion (assessmentState w) + 1)%nat
           /\ r = ReqEvaluate (mindsetAnswers (assessmentState w))
                    (selectedDomain (assessmentState w))
                    (<[id q := toUpperCase (input w)]>
                       (domainAnswers (assessmentState w)))).
Proof.
  unfold sendMessage. intros H Hr.
  destruct (emptyString (trim (input w)) || loading w);
    [simplify_eq; by apply elem_of_nil in Hr|].
  destruct (active (assessmentState w)) eqn:Hact.
  - destruct (phase (assessmentState w)) as [[]|] eqn:Hph.
    + destruct (handleMindsetAnswer _ _ _); simplify_eq.
      by apply elem_of_nil in Hr.
    + unfold handleDomainSelection in H.
      destruct (falsy _) eqn:Hf; simpl in H; simplify_eq;
        [by apply elem_of_nil in Hr|].
      apply list_elem_of_singleton in Hr. right; left. done.
    + unfold handleDomainAnswer, submitCompleteAssessment in H.
      destruct (questions _ !! _) as [q|] eqn:Hq; [|done].
      destruct (_ <? _)%nat eqn:E; simplify_eq;
        [by apply elem_of_nil in Hr|].
      apply Nat.ltb_ge in E. apply list_elem_of_singleton in Hr.
      right; right. split; [done|]. by exists q.
    + simplify_eq. by apply elem_of_nil in Hr.
  - simplify_eq. apply list_elem_of_singleton in Hr. left. by eexists.
Qed.

(** *** The loading flag and the requests in flight *)

Lemma requestInFlight_snoc (ps : list Pending) p :
  isRequest p = true -> Exists (fun p => isRequest p = true) (ps ++ [p]).
Proof. intros. apply Exists_app. right. by constructor. Qed.

Lemma requestInFlight_grow (ps : list Pending) p :
  Exists (fun p => isRequest p = true) ps ->
  Exists (fun p => isRequest p = true) (ps ++ [p]).
Proof. intros. apply Exists_app. by left. Qed.

Lemma requestInFlight_delete_timer (ps : list Pending) i p :
  ps !! i = Some p -> isRequest p = false ->
  Exists (fun p => isRequest p = true) ps ->
  Exists (fun p => isRequest p = true) (delete i ps).
Proof.
  intros Hi Hp Hex. rewrite <- (take_drop_middle ps i p Hi) in Hex.
  assert (delete i ps = take i ps ++ drop (S i) ps) as ->.
  { rewrite <- (take_drop_middle ps i p Hi) at 1.
    assert (i = length (take i ps)) as Hlen.
    { rewrite length_take. apply lookup_lt_Some in Hi. lia. }
    rewrite Hlen at 1. apply delete_middle. }
  apply Exists_app in Hex as [?|Hex]; apply Exists_app; [by left|right].
  inversion Hex; [congruence|done].
Qed.

Lemma sendMessage_loading w w' rs :
  sendMessage w = Some (w', rs) ->
  (loading w = true -> requestInFlight w) ->
  loading w' = true -> requestInFlight w'.
Proof.
  unfold sendMessage, requestInFlight. intros H Hinv.
  destruct (emptyString (trim (input w))); simpl in H; [by simplify_eq|].
  destruct (loading w) eqn:Hl; simpl in H; [simplify_eq; auto|].
  unfold handleMindsetAnswer, handleDomainAnswer, handleDomainSelection,
    submitCompleteAssessment in H.
  repeat case_match; simplify_eq; unfold_widget; rewrite ?Hl;
    first [done | intros _; by apply requestInFlight_snoc].
Qed.

Lemma step_loading w e w' rs :
  step w e = Some (w', rs) ->
  (loading w = true -> requestInFlight w) ->
  loading w' = true -> requestInFlight w'.
Proof.
  unfold requestInFlight. destruct e; simpl; intros H Hinv.
  - by simplify_eq.
  - case_match; by simplify_eq.
  - case_match; [|done]. destruct (sendMessage w) as [[w1 rs1]|] eqn:E.
    + simplify_eq. by eapply sendMessage_loading.
    + by simplify_eq.
  - case_match; by simplify_eq.
  - unfold startAssessment in H. case_match; simplify_eq. unfold_widget.
    intros _. by apply requestInFlight_snoc.
  - destruct (pending w !! i) as [p|] eqn:E; [|done].
    unfold resume, startAssessment_resume, showDomainSelection_resume,
      handleDomainSelection_resume, submitCompleteAssessment_resume,
      sendMessage_resume, askQuestion, showDomainSelection in H.
    repeat case_match; simplify_eq; unfold_widget; try done.
    + intros Hl. by eapply requestInFlight_delete_timer; [exact E| |auto].
    + intros Hl. by eapply requestInFlight_delete_timer; [exact E| |auto].
    + intros _. by apply requestInFlight_snoc.
Qed.

Lemma reachable_loading w :
  reachable w -> loading w = true -> requestInFlight w.
Proof.
  induction 1 as [|w e w' rs _ IH Hstep]; [done|].
  by eapply step_loading.
Qed.

(** *** The transcript *)

Lemma sendMessage_messages w w' rs :
  sendMessage w = Some (w', rs) ->
  exists t, messages w' = messages w ++ t /\ Forall questionNumbered t.
Proof.
  unfold sendMessage, handleMindsetAnswer, handleDomainAnswer,
    handleDomainSelection, submitCompleteAssessment.
  intros H.
  repeat case_match; simplify_eq; unfold_widget;
    first [ by exists []; rewrite app_nil_r
          | eexists [_]; split; [done|]; by repeat constructor
          | eexists [_; _]; split; [by rewrite <- app_assoc|];
            by repeat constructor ].
Qed.

Lemma resume_messages p r w w' rs :
  resume p r w = Some (w', rs) ->
  exists t, messages w' = messages w ++ t /\ Forall questionNumbered t.
Proof.
  unfold resume, startAssessment_resume, showDomainSelection_resume,
    handleDomainSelection_resume, submitCompleteAssessment_resume,
    sendMessage_resume, askQuestion, showDomainSelection.
  intros H.
  repeat case_match; simplify_eq; unfold_widget;
    first [ by exists []; rewrite app_nil_r
          | eexists [_]; split; [done|]; repeat constructor; by eexists].
Qed.

Lemma step_messages w e w' rs :
  step w e = Some (w', rs) ->
  e = ClearChat
  \/ exists t, messages w' = messages w ++ t /\ Forall questionNumbered t.
Proof.
  destruct e; simpl; intros H; [right|right|right|by left|right|right].
  - simplify_eq. exists []. by rewrite app_nil_r.
  - case_match; simplify_eq. exists []. by rewrite app_nil_r.
  - case_match; [|done]. destruct (sendMessage w) as [[w1 rs1]|] eqn:E.
    + simplify_eq. by eapply sendMessage_messages.
    + simplify_eq. exists []. by rewrite app_nil_r.
  - unfold startAssessment in H. case_match; simplify_eq. unfold_widget.
    eexists [_]. split; [done|]. by repeat constructor.
  - destruct (pending w !! i) as [p|] eqn:E; [|done].
    by eapply resume_messages in H.
Qed.

Lemma reachable_messages w :
  reachable w -> messages w <> [] /\ Forall questionNumbered (messages w).
Proof.
  induction 1 as [|w e w' rs _ [IHne IH] Hstep].
  - split; [done|]. by repeat constructor.
  - destruct (step_messages _ _ _ _ Hstep) as [->|(t & -> & Ht)].
    + simpl in Hstep. case_match; simplify_eq. split; [done|].
      by repeat constructor.
    + split; [by destruct (messages w)|]. by apply Forall_app.
Qed.

End Invariants.

(** *** What holds in every reachable state *)

(** The phase decides the fields: [active] is set exactly while there is a
    phase, [answers] is never written, no domain is selected and no domain
    answer is held outside the domain test, and during it the selected
    domain is one of the five. *)
Theorem phase_decides_fields
    (toLowerCase toUpperCase : jsstring -> jsstring) (w : Widget)
    (Hreach : reachable toLowerCase toUpperCase w) :
  let st := assessmentState w in
  (active st = true <-> phase st <> None)
  /\ answers st = ∅
  /\ (phase st = None -> st = initialAssessmentState)
  /\ (phase st <> Some DomainTest ->
      selectedDomain st = None /\ domainAnswers st = ∅)
  /\ (phase st = Some DomainTest ->
      exists d, selectedDomain st = Some d /\ d ∈ domains).
Proof.
  intros st.
  destruct (reachable_wellPhased _ _ _ Hreach) as [[Ha Hst] _].
  fold st in Ha, Hst.
  destruct (phase st) as [[]|] eqn:Hph;
    repeat split; try done; try tauto; try (by intros [= ]);
    try (intros _; tauto); try (by rewrite Hst).
Qed.

(** At the last question of the domain test of a sample run. *)
Lemma phase_decides_fields_witness :
  exists d,
    selectedDomain (assessmentState (stateAfter lastDomainAnswerTyped))
    = Some d /\ d ∈ domains.
Proof.
  apply (phase_decides_fields asciiLower asciiUpper
           (stateAfter lastDomainAnswerTyped)
           (AssessmentFacts.stateAfter_reachable _)).
  reflexivity.
Defined.

(** Whatever event happens in a reachable state, a request for domain
    questions and a request for the evaluation name a domain of the
    list. *)
Theorem requests_name_listed_domains
    (toLowerCase toUpperCase : jsstring -> jsstring)
    (w w' : Widget) (e : Event) (rs : list Request)
    (Hreach : reachable toLowerCase toUpperCase w)
    (Hstep : step toLowerCase toUpperCase w e = Some (w', rs)) :
  Forall namesListedDomain rs.
Proof.
  apply Forall_forall. intros r Hr.
  destruct (step_requests _ _ _ _ _ _ _ Hstep Hr)
    as [[-> Hs]|[->| ->]]; [|done..].
  destruct (sendMessage_requests _ _ _ _ _ _ Hs Hr)
    as [(t & -> & _)|[(_ & -> & Hf)|(Hph & q & _ & _ & ->)]]; [done| |].
  - by apply resolved_domain.
  - simpl. by apply (phase_decides_fields _ _ _ Hreach).
Qed.

(** When the choice ["3"] is sent in a sample run. *)
Lemma requests_name_listed_domains_witness :
  Forall namesListedDomain [ReqDomainQuestions (str "Physics")].
Proof.
  refine (requests_name_listed_domains asciiLower asciiUpper
            (stateAfter (domainChoiceTyped (str "3")))
            (stateAfter domainQuestionsRequested) SendMessage _
            (AssessmentFacts.stateAfter_reachable _) _).
  vm_compute. reflexivity.
Defined.

(** No question is skipped: during the domain selection every mindset
    question has an answer, and the evaluate request carries the mindset
    answers of the state and an answer for every question of the domain
    test. *)
Theorem evaluation_answers_complete
    (toLowerCase toUpperCase : jsstring -> jsstring) (w : Widget)
    (Hreach : reachable toLowerCase toUpperCase w) :
  let st := assessmentState w in
  (phase st = Some DomainSelection ->
   forall q, q ∈ questions st -> is_Some (mindsetAnswers st !! id q))
  /\ (forall e w' rs m d a,
        step toLowerCase toUpperCase w e = Some (w', rs) ->
        ReqEvaluate m d a ∈ rs ->
        m = mindsetAnswers st
        /\ forall q, q ∈ questions st -> is_Some (a !! id q)).
Proof.
  intros st. pose proof (reachable_answeredSoFar _ _ _ Hreach) as Hinv.
  fold st in Hinv. split.
  - intros Hph. unfold answeredSoFar in Hinv. by rewrite Hph in Hinv.
  - intros e w' rs m d a Hstep Hr.
    destruct (step_requests _ _ _ _ _ _ _ Hstep Hr)
      as [[-> Hs]|[?|?]]; [|done..].
    destruct (sendMessage_requests _ _ _ _ _ _ Hs Hr)
      as [(t & ? & _)|[(_ & ? & _)|(Hph & q & Hq & Hlast & Heq)]];
      [done..|].
    injection Heq as -> -> ->. split; [done|].
    unfold answeredSoFar in Hinv. fold st in Hph. rewrite Hph in Hinv.
    eapply answered_all; [exact Hlast|]. by apply answered_insert.
Qed.

(** When the last answer of the domain test of a sample run is sent. *)
Lemma evaluation_answers_complete_witness :
  Forall (fun q =>
            is_Some (domainAnswers
                       (assessmentState (stateAfter evaluationRequested))
                     !! id q))
    sampleDomainQuestions.
Proof.
  apply Forall_forall.
  refine (proj2 (proj2 (evaluation_answers_complete asciiLower asciiUpper
                          (stateAfter lastDomainAnswerTyped)
                          (AssessmentFacts.stateAfter_reachable _))
                   SendMessage (stateAfter evaluationRequested)
                   [ReqEvaluate
                      (mindsetAnswers
                         (assessmentState (stateAfter lastDomainAnswerTyped)))
                      (Some (str "Physics"))
                      (domainAnswers
                         (assessmentState (stateAfter evaluationRequested)))]
                   _ _ _ _ _)).
  - vm_compute. reflexivity.
  - apply list_elem_of_singleton. reflexivity.
Defined.

(** The loading flag is never left set with nothing in flight: while it is
    set some request is pending, so once every response has arrived the
    input is enabled. *)
Theorem loading_has_request
    (toLowerCase toUpperCase : jsstring -> jsstring) (w : Widget)
    (Hreach : reachable toLowerCase toUpperCase w)
    (Hloading : loading w = true) :
  exists p, p ∈ pending w /\ isRequest p = true.
Proof.
  apply Exists_exists. by apply (reachable_loading _ _ _ Hreach).
Qed.

(** While the evaluation of a sample run is awaited. *)
Lemma loading_has_request_witness :
  exists p, p ∈ pending (stateAfter evaluationRequested)
            /\ isRequest p = true.
Proof.
  exact (loading_has_request asciiLower asciiUpper
           (stateAfter evaluationRequested)
           (AssessmentFacts.stateAfter_reachable _) eq_refl).
Defined.

(** Only [clearChat] removes messages: every other event keeps the
    transcript and appends to it. *)
Theorem transcript_append_only
    (toLowerCase toUpperCase : jsstring -> jsstring)
    (w w' : Widget) (e : Event) (rs : list Request)
    (Hstep : step toLowerCase toUpperCase w e = Some (w', rs))
    (Hkeep : e <> ClearChat) :
  exists t, messages w' = messages w ++ t.
Proof.
  destruct (step_messages _ _ _ _ _ _ Hstep) as [?|(t & Ht & _)]; [done|].
  by exists t.
Qed.

(** When the first mindset answer of a sample run is sent. *)
Lemma transcript_append_only_witness :
  exists t,
    messages (stateAfter (firstAnswerTyped (str "a") ++ [SendMessage]))
    = messages (stateAfter (firstAnswerTyped (str "a"))) ++ t.
Proof.
  refine (transcript_append_only asciiLower asciiUpper
            (stateAfter (firstAnswerTyped (str "a")))
            (stateAfter (firstAnswerTyped (str "a") ++ [SendMessage]))
            SendMessage [] _ _).
  - vm_compute. reflexivity.
  - discriminate.
Defined.

(** The transcript of a reachable state is never empty, and each question
    message in it shows a question at an index below the total it names:
    "Question k/n" has k between 1 and n. *)
Theorem question_messages_in_range
    (toLowerCase toUpperCase : jsstring -> jsstring) (w : Widget)
    (Hreach : reachable toLowerCase toUpperCase w) :
  messages w <> []
  /\ forall m index total q,
       m ∈ messages w -> text m = TQuestion index total q ->
       (index < total)%nat
       /\ exists qs : list Question,
            qs !! index = Some q /\ length qs = total.
Proof.
  destruct (reachable_messages _ _ _ Hreach) as [Hne Hall].
  split; [exact Hne|]. intros m index total q Hm Ht.
  eapply Forall_forall in Hall; [|exact Hm]. unfold questionNumbered in Hall.
  rewrite Ht in Hall. destruct Hall as (qs & Hq & Hlen).
  split; [|by exists qs]. apply lookup_lt_Some in Hq. lia.
Qed.

(** At the second mindset question of a sample run. *)
Lemma question_messages_in_range_witness :
  (1 < 2)%nat
  /\ exists qs : list Question,
       qs !! 1%nat = sampleMindsetQuestions !! 1%nat /\ length qs = 2%nat.
Proof.
  refine (proj2 (question_messages_in_range asciiLower asciiUpper
                   (stateAfter (lastMindsetAnswerTyped (str "b")))
                   (AssessmentFacts.stateAfter_reachable _))
            {| type := bot;
               text := TQuestion 1 2
                         {| id := str "m2";
                            question := str "What drives your curiosity?";
                            options := None |} |}
            1%nat 2%nat _ _ eq_refl).
  vm_compute. apply list_elem_of_In. do 5 right. left. reflexivity.
Defined.

(** [clearChat] does not cancel a request: when the response to the
    domain-questions request arrives after it, the assessment the chat was
    cleared of is active again, in the domain test, with the mindset
    answers its request was issued with. *)
Theorem clearChat_does_not_cancel
    (toLowerCase toUpperCase : jsstring -> jsstring) (w : Widget)
    (i : nat) (captured : AssessmentState) (d : jsstring)
    (data : QuestionsData)
    (Hreach : reachable toLowerCase toUpperCase w)
    (Hopen : open w = true)
    (Hpending : pending w !! i = Some (PDomainQuestions captured d)) :
  exists w1 w2,
    step toLowerCase toUpperCase w ClearChat = Some (w1, [])
    /\ assessmentState w1 = initialAssessmentState
    /\ step toLowerCase toUpperCase w1
         (Resume i (RDomainQuestions (Parsed data))) = Some (w2, [])
    /\ active (assessmentState w2) = true
    /\ phase (assessmentState w2) = Some DomainTest
    /\ selectedDomain (assessmentState w2) = Some d
    /\ questions (assessmentState w2) = data_questions data
    /\ mindsetAnswers (assessmentState w2) = mindsetAnswers captured
    /\ messages w2
       = [ {| type := bot; text := TClearGreeting |};
           {| type := bot;
              text := TPhase3 d (data_total_questions data) |} ].
Proof.
  destruct (reachable_wellPhased _ _ _ Hreach) as [_ Hp].
  eapply Forall_lookup_1 in Hp; [|exact Hpending].
  destruct Hp as ([_ Hst] & Hph & _). rewrite Hph in Hst.
  destruct Hst as (Hact & _).
  eexists _, _. split; [simpl; by rewrite Hopen|].
  split; [reflexivity|]. split.
  { simpl. rewrite Hpending. reflexivity. }
  repeat split; try reflexivity. exact Hact.
Qed.

(** While the domain questions of a sample run are fetched. *)
Lemma clearChat_does_not_cancel_witness :
  exists w1 w2,
    step asciiLower asciiUpper (stateAfter domainQuestionsRequested) ClearChat
    = Some (w1, [])
    /\ assessmentState w1 = initialAssessmentState
    /\ step asciiLower asciiUpper w1 (Resume 0 sampleDomainTest)
       = Some (w2, [])
    /\ active (assessmentState w2) = true
    /\ phase (assessmentState w2) = Some DomainTest.
Proof.
  destruct (clearChat_does_not_cancel asciiLower asciiUpper
              (stateAfter domainQuestionsRequested) 0
              (assessmentState (stateAfter (domainChoiceTyped (str "3"))))
              (str "Physics")
              {| data_questions := sampleDomainQuestions;
                 data_total_questions := 2 |}
              (AssessmentFacts.stateAfter_reachable _)
              ltac:(vm_compute; reflexivity)
              ltac:(vm_compute; reflexivity))
    as (w1 & w2 & H1 & Hinit & H2 & Hact & Hph & _).
  exists w1, w2. repeat split; assumption.
Defined.

(** When the backend sends no question, the assessment cannot go on:
    [askQuestion] shows nothing, and no typing, sending or toggling changes
    the assessment state or issues a request; an answer that is sent is
    dropped with the input left in the field. *)
Theorem no_questions_no_progress
    (toLowerCase toUpperCase : jsstring -> jsstring)
    (w w' : Widget) (e : Event) (rs : list Request)
    (Hactive : active (assessmentState w) = true)
    (Hphase : phase (assessmentState w) = Some Mindset
              \/ phase (assessmentState w) = Some DomainTest)
    (Hnone : questions (assessmentState w) = [])
    (Hevent : e = ToggleOpen \/ e = SendMessage \/ exists s, e = SetInput s)
    (Hstep : step toLowerCase toUpperCase w e = Some (w', rs)) :
  assessmentState w' = assessmentState w
  /\ rs = []
  /\ (e = SendMessage -> w' = w)
  /\ askQuestion (questions (assessmentState w))
       (currentQuestion (assessmentState w)) w = w.
Proof.
  assert (askQuestion (questions (assessmentState w))
            (currentQuestion (assessmentState w)) w = w) as Hask.
  { unfold askQuestion. by rewrite Hnone. }
  destruct Hevent as [->|[->|[s ->]]]; simpl in Hstep.
  - by simplify_eq.
  - destruct (open w); [|done].
    assert (sendMessage toLowerCase toUpperCase w = Some (w, [])
            \/ sendMessage toLowerCase toUpperCase w = None) as [Hs|Hs].
    { unfold sendMessage, handleMindsetAnswer, handleDomainAnswer.
      destruct (emptyString (trim (input w)) || loading w); [by left|].
      rewrite Hactive, Hnone.
      destruct Hphase as [-> | ->]; by right. }
    all: rewrite Hs in Hstep; by simplify_eq.
  - case_match; by simplify_eq.
Qed.

(** After a start that brought no question, an answer is sent. *)
Lemma no_questions_no_progress_witness :
  assessmentState (stateAfter (noQuestionsAnswerTyped ++ [SendMessage]))
  = assessmentState (stateAfter noQuestionsAnswerTyped)
  /\ input (stateAfter (noQuestionsAnswerTyped ++ [SendMessage])) = str "a".
Proof.
  split; [|by vm_compute].
  refine (proj1 (no_questions_no_progress asciiLower asciiUpper
                   (stateAfter noQuestionsAnswerTyped)
                   (stateAfter (noQuestionsAnswerTyped ++ [SendMessage]))
                   SendMessage [] _ (or_introl _) _
                   (or_intror (or_introl eq_refl)) _));
    vm_compute; reflexivity.
Defined.

(** Outside the assessment the question sent to [/api/ask] is the input
    without the white space around it: it is not empty, it neither starts
    nor ends with white space, it is the text of the user message shown,
    and the input field is emptied. *)
Theorem asked_question_is_trimmed
    (toLowerCase toUpperCase : jsstring -> jsstring)
    (w w' : Widget) (r : Request) (rs : list Request)
    (Hidle : active (assessmentState w) = false)
    (Hsend : sendMessage toLowerCase toUpperCase w = Some (w', r :: rs)) :
  r = ReqAsk (trim (input w)) /\ rs = []
  /\ trim (input w) <> []
  /\ (forall x l, trim (input w) = x :: l -> isWhiteSpace x = false)
  /\ (forall l y, trim (input w) = l ++ [y] -> isWhiteSpace y = false)
  /\ (exists a b,
         input w = a ++ trim (input w) ++ b
         /\ Forall (fun c => isWhiteSpace c = true) a
         /\ Forall (fun c => isWhiteSpace c = true) b)
  /\ messages w'
     = messages w ++ [ {| type := user; text := TText (trim (input w)) |} ]
  /\ input w' = [] /\ loading w' = true.
Proof.
  unfold sendMessage in Hsend. rewrite Hidle in Hsend.
  destruct (emptyString (trim (input w))) eqn:He; simpl in Hsend;
    [by simplify_eq|].
  destruct (loading w); simpl in Hsend; simplify_eq.
  destruct (StringFacts.trim_spec (input w)) as (Hab & Hhead & Hlast).
  split; [done|]. split; [done|].
  split; [by destruct (trim (input w))|]. by repeat split.
Qed.

(** A question typed with spaces around it, in a sample run. *)
Lemma asked_question_is_trimmed_witness :
  ReqAsk (str "What is GRH?")
  = ReqAsk (trim (input (stateAfter questionTyped))).
Proof.
  refine (proj1 (asked_question_is_trimmed asciiLower asciiUpper
                   (stateAfter questionTyped)
                   (stateAfter (questionTyped ++ [SendMessage]))
                   (ReqAsk (str "What is GRH?")) [] _ _));
    vm_compute; reflexivity.
Defined.

(** The name of a domain, typed in any mix of upper and lower case,
    selects that domain. *)
Theorem domain_name_in_any_case (input d : jsstring)
    (Hd : d ∈ domains)
    (Hcase : asciiLower input = asciiLower d) :
  resolveDomain asciiLower input = Some d.
Proof.
  assert (leadingIndex input = false) as Hno.
  { unfold leadingIndex.
    assert (exists c rest l, input = c :: rest /\ asciiLowerUnit c = l
                             /\ (97 <= l <= 122)%N)
      as (c & rest & l & -> & Hl & Hr).
    { unfold domains in Hd.
      repeat (apply elem_of_cons in Hd as [->|Hd]);
        [..|by apply elem_of_nil in Hd];
        (destruct input as [|c rest]; [discriminate Hcase|];
         injection Hcase as Hc _; exists c, rest, (asciiLowerUnit c);
         split; [done|]; split; [done|]; rewrite Hc; vm_compute;
         split; discriminate). }
    rewrite StringFacts.parseInt_letter; [done|].
    by eapply StringFacts.asciiLowerUnit_letter. }
  rewrite (AssessmentFacts.resolveDomain_no_index _ _ Hno).
  assert (List.find (matchesDomain asciiLower input) domains
          = List.find (matchesDomain asciiLower d) domains) as ->.
  { unfold matchesDomain. by rewrite Hcase. }
  unfold domains in Hd.
  repeat (apply elem_of_cons in Hd as [->|Hd]); try reflexivity.
  by apply elem_of_nil in Hd.
Qed.

(** ["pHySiCs"] selects Physics. *)
Lemma domain_name_in_any_case_witness :
  resolveDomain asciiLower (str "pHySiCs") = Some (str "Physics").
Proof.
  apply domain_name_in_any_case; [|reflexivity].
  apply list_elem_of_In. do 2 right. left. reflexivity.
Defined.

End AssessmentInvariantFacts.

(** ** Facts about [formatMessageText] *)

Module FormatFacts.
Import Format.

Lemma join_cons (sep p : jsstring) (ps : list jsstring) :
  ps <> [] -> join sep (p :: ps) = p ++ sep ++ join sep ps.
Proof.
  destruct ps as [|q ps]; [done|]. intros _. simpl.
  by rewrite <- app_assoc.
Qed.

Lemma join_consHead sep c parts :
  parts <> [] -> join sep (consHead c parts) = c :: join sep parts.
Proof. by destruct parts. Qed.

Lemma splitUnit_nonempty sep s : splitUnit sep s <> [].
Proof.
  destruct s as [|c s]; simpl; [done|].
  destruct (c =? sep)%N; [done|]. by destruct (splitUnit sep s).
Qed.

Lemma join_splitUnit sep s : join [sep] (splitUnit sep s) = s.
Proof.
  induction s as [|c s IH]; simpl; [done|].
  destruct (N.eqb_spec c sep) as [->|Hne].
  - rewrite join_cons by apply splitUnit_nonempty. simpl. by rewrite IH.
  - rewrite join_consHead by apply splitUnit_nonempty. by rewrite IH.
Qed.

(** The parts are one more than the separators, and none holds one. *)
Lemma length_splitUnit sep s :
  length (splitUnit sep s)
  = S (length (List.filter (fun c => (c =? sep)%N) s)).
Proof.
  induction s as [|c s IH]; simpl; [done|].
  destruct (c =? sep)%N; simpl; [by rewrite IH|].
  rewrite <- IH. by destruct (splitUnit sep s).
Qed.

Lemma splitUnit_free sep s :
  Forall (fun part => sep ∉ part) (splitUnit sep s).
Proof.
  induction s as [|c s IH]; simpl.
  - constructor; [|done]. apply not_elem_of_nil.
  - destruct (N.eqb_spec c sep) as [->|Hne].
    + constructor; [apply not_elem_of_nil|done].
    + destruct (splitUnit sep s) as [|p ps]; simpl.
      * constructor; [|done]. intros H. apply list_elem_of_singleton in H.
        congruence.
      * inversion IH as [|? ? Hp Hps]; subst. constructor; [|done].
        intros H. apply elem_of_cons in H as [?|?]; [congruence|done].
Qed.

Lemma splitStars_nonempty s : splitStars s <> [].
Proof.
  destruct s as [|c [|d s]]; [done| done |].
  change (splitStars (c :: d :: s))
    with (if ((c =? 42) && (d =? 42))%N then [] :: splitStars s
          else consHead c (splitStars (d :: s))).
  destruct ((c =? 42) && (d =? 42))%N; [done|].
  by destruct (splitStars (d :: s)).
Qed.

Lemma join_splitStars_upto n : forall s,
  (length s <= n)%nat -> join [42%N; 42%N] (splitStars s) = s.
Proof.
  induction n as [|n IH]; intros s Hn.
  - destruct s; [done|simpl in Hn; lia].
  - destruct s as [|c [|d s]]; [done..|].
    change (splitStars (c :: d :: s))
      with (if ((c =? 42) && (d =? 42))%N then [] :: splitStars s
            else consHead c (splitStars (d :: s))).
    destruct ((c =? 42) && (d =? 42))%N eqn:E.
    + apply andb_true_iff in E as [Hc Hd].
      apply N.eqb_eq in Hc, Hd. subst.
      rewrite join_cons by apply splitStars_nonempty. simpl.
      rewrite IH; [done|]. simpl in Hn. lia.
    + rewrite join_consHead by apply splitStars_nonempty.
      rewrite IH; [done|]. simpl in *. lia.
Qed.

Lemma join_splitStars s : join [42%N; 42%N] (splitStars s) = s.
Proof. by apply (join_splitStars_upto (length s)). Qed.

Lemma splitStars_head s p ps :
  splitStars s = p :: ps ->
  p = [] \/ exists c t p', s = c :: t /\ p = c :: p'.
Proof.
  destruct s as [|c [|d s]]; [by intros [= <- _]; left| |].
  - intros [= <- _]. right. by exists c, [], [].
  - change (splitStars (c :: d :: s))
      with (if ((c =? 42) && (d =? 42))%N then [] :: splitStars s
            else consHead c (splitStars (d :: s))).
    destruct ((c =? 42) && (d =? 42))%N; [by intros [= <- _]; left|].
    destruct (splitStars (d :: s)) as [|q qs]; intros [= <- _]; right;
      by eexists c, (d :: s), _.
Qed.

Lemma splitStars_free_upto n : forall s,
  (length s <= n)%nat ->
  Forall (fun part => includes part [42%N; 42%N] = false) (splitStars s).
Proof.
  induction n as [|n IH]; intros s Hn.
  - destruct s; [by repeat constructor|simpl in Hn; lia].
  - destruct s as [|c [|d s]]; [by repeat constructor| |].
    + repeat constructor. simpl. unfold unit_eqb.
      by rewrite andb_false_r.
    + change (splitStars (c :: d :: s))
        with (if ((c =? 42) && (d =? 42))%N then [] :: splitStars s
              else consHead c (splitStars (d :: s))).
      destruct ((c =? 42) && (d =? 42))%N eqn:E.
      * constructor; [done|]. apply IH. simpl in Hn. lia.
      * assert (Forall (fun part => includes part [42%N; 42%N] = false)
                  (splitStars (d :: s))) as Hrec
          by (apply IH; simpl in *; lia).
        destruct (splitStars (d :: s)) as [|p ps] eqn:Hs;
          [by pose proof (splitStars_nonempty (d :: s))|].
        inversion Hrec as [|? ? Hp Hps]; subst. constructor; [|done].
        simpl. rewrite Hp, orb_false_r.
        destruct (splitStars_head _ _ _ Hs)
          as [->|(c' & t & p' & [= <- <-] & ->)].
        -- simpl. unfold unit_eqb. by rewrite andb_false_r.
        -- simpl. unfold unit_eqb.
           assert (startsWith p' [] = true) as -> by (by destruct p').
           by rewrite andb_true_r.
Qed.

Lemma splitStars_free s :
  Forall (fun part => includes part [42%N; 42%N] = false) (splitStars s).
Proof. by apply (splitStars_free_upto (length s)). Qed.

Lemma map_imap_id {A B} (g : B -> A) (l : list A) (f : nat -> A -> B) :
  (forall i x, g (f i x) = x) -> List.map g (imap f l) = l.
Proof.
  revert f. induction l as [|x l IH]; intros f Hf; simpl; [done|].
  rewrite Hf. f_equal. apply IH. intros i y. apply Hf.
Qed.

Lemma map_nodeText_markBold parts :
  List.map nodeText (markBold parts) = parts.
Proof.
  apply map_imap_id. intros j part. by destruct (Nat.even j).
Qed.

Lemma filter_br_count (lines : list jsstring) :
  forall (f : nat -> jsstring -> Line) (k n : nat),
    (forall i x, br (f i x) = (k + i <? n)%nat) ->
    (k + length lines = S n)%nat ->
    length (List.filter br (imap f lines)) = (length lines - 1)%nat.
Proof.
  induction lines as [|l lines IH]; intros f k n Hf Hk; [done|].
  rewrite imap_cons. simpl List.filter. rewrite Hf, Nat.add_0_r.
  assert (forall i x, br ((f ∘ S) i x) = (S k + i <? n)%nat) as Hf'.
  { intros i x. simpl. rewrite Hf. f_equal. lia. }
  simpl in Hk. destruct (Nat.ltb_spec k n).
  - simpl. rewrite (IH _ (S k) n Hf') by lia.
    destruct lines; simpl in *; lia.
  - destruct lines; [done|simpl in Hk; lia].
Qed.

(** [formatMessageText] loses nothing and adds nothing: the nodes of the
    lines, with [**] between the nodes and a newline between the lines,
    are the text; there is one [<br />] for each newline of the text; and
    no node holds a newline or a [**]. *)
Theorem formatMessageText_keeps_text (text : jsstring) :
  sourceText (formatMessageText text) = text
  /\ length (formatMessageText text)
     = S (length (List.filter (fun c => (c =? 10)%N) text))
  /\ length (List.filter br (formatMessageText text))
     = length (List.filter (fun c => (c =? 10)%N) text)
  /\ Forall (fun l => Forall (fun n => 10%N ∉ nodeText n) (nodes l))
       (formatMessageText text)
  /\ Forall (fun l =>
               Forall (fun n => includes (nodeText n) [42%N; 42%N] = false)
                 (nodes l))
       (formatMessageText text).
Proof.
  unfold sourceText, formatMessageText.
  set (lines := splitUnit 10 text).
  assert (List.map
            (fun l => join [42%N; 42%N] (List.map nodeText (nodes l)))
            (imap (fun i line =>
                     {| nodes := markBold (splitStars line);
                        br := (i <? length lines - 1)%nat |}) lines)
          = lines) as Hmap.
  { apply map_imap_id. intros i line. simpl.
    by rewrite map_nodeText_markBold, join_splitStars. }
  split; [rewrite Hmap; apply join_splitUnit|].
  split; [rewrite length_imap; apply length_splitUnit|].
  split; [|split].
  - pose proof (length_splitUnit 10 text) as Hlen. fold lines in Hlen.
    rewrite (filter_br_count lines _ 0 (length lines - 1)); [lia|done|lia].
  - apply Forall_forall. intros l Hl.
    apply list_elem_of_lookup in Hl as [i Hi].
    rewrite list_lookup_imap in Hi.
    destruct (lines !! i) as [line|] eqn:Hline; [|done].
    simpl in Hi. injection Hi as <-. simpl.
    pose proof (splitUnit_free 10 text) as Hfree. fold lines in Hfree.
    eapply Forall_lookup_1 in Hfree; [|exact Hline].
    apply Forall_forall. intros n Hn Hin. apply Hfree.
    assert (nodeText n ∈ splitStars line) as Hpart.
    { rewrite <- (map_nodeText_markBold (splitStars line)).
      apply list_elem_of_In, in_map, list_elem_of_In, Hn. }
    rewrite <- (join_splitStars line).
    clear -Hpart Hin. revert Hpart.
    generalize (splitStars line). intros parts Hpart.
    destruct parts as [|p ps]; [by apply elem_of_nil in Hpart|].
    simpl. apply elem_of_app.
    apply elem_of_cons in Hpart as [<-|Hpart]; [by left|right].
    induction ps as [|q ps IH]; [by apply elem_of_nil in Hpart|].
    simpl. apply elem_of_cons in Hpart as [<-|Hpart].
    + do 2 right. apply elem_of_app. by left.
    + do 2 right. apply elem_of_app. right. by apply IH.
  - apply Forall_forall. intros l Hl.
    apply list_elem_of_lookup in Hl as [i Hi].
    rewrite list_lookup_imap in Hi.
    destruct (lines !! i) as [line|] eqn:Hline; [|done].
    simpl in Hi. injection Hi as <-. simpl.
    apply Forall_forall. intros n Hn.
    assert (nodeText n ∈ splitStars line) as Hpart.
    { rewrite <- (map_nodeText_markBold (splitStars line)).
      apply list_elem_of_In, in_map, list_elem_of_In, Hn. }
    pose proof (splitStars_free line) as Hfree.
    by eapply Forall_forall in Hfree.
Qed.

(** A text of two lines with one bold word. *)
Example formatMessageText_bold_word :
  formatMessageText (str "a **b** c") 
  = [ {| nodes := [Text (str "a "); Strong (str "b"); Text (str " c")];
         br := false |} ].
Proof. reflexivity. Qed.

End FormatFacts.

(** ** Facts about the first [ChatbotWidget] *)

Module ChatWidgetFacts.
Import ChatWidget.

Lemma filter_isAsk_snoc (ps : list Pending) p :
  length (List.filter isAsk (ps ++ [p]))
  = (length (List.filter isAsk ps) + (if isAsk p then 1 else 0))%nat.
Proof.
  rewrite List.filter_app, length_app. simpl. by destruct (isAsk p).
Qed.

Lemma filter_isAsk_delete (ps : list Pending) i p :
  ps !! i = Some p ->
  length (List.filter isAsk ps)
  = (length (List.filter isAsk (delete i ps))
     + (if isAsk p then 1 else 0))%nat.
Proof.
  intros Hi.
  assert (delete i ps = take i ps ++ drop (S i) ps) as ->.
  { rewrite <- (take_drop_middle ps i p Hi) at 1.
    assert (i = length (take i ps)) as Hlen.
    { rewrite length_take. apply lookup_lt_Some in Hi. lia. }
    rewrite Hlen at 1. apply delete_middle. }
  rewrite <- (take_drop_middle ps i p Hi) at 1.
  rewrite !List.filter_app, !length_app. simpl.
  destruct (isAsk p); simpl; lia.
Qed.

Lemma step_flagsFollowPending w e w' qs :
  step w e = Some (w', qs) -> flagsFollowPending w -> flagsFollowPending w'.
Proof.
  unfold flagsFollowPending. destruct e; simpl; intros H [Hc Ht].
  - simplify_eq. done.
  - enabled H. simplify_eq. done.
  - enabled H. unfold sendMessage in H.
    destruct (emptyString (trim (input w))); simpl in H; [by simplify_eq|].
    destruct (loading w) eqn:Hl; simpl in H; simplify_eq; [by rewrite Hl|].
    unfold_chat. rewrite filter_isAsk_snoc, Hc. split; [done|].
    intros _. by destruct (pending w).
  - enabled H. simplify_eq. done.
  - enabled H. destruct (quickActions !! i) as [[query action]|]; [|done].
    unfold handleQuickAction in H.
    destruct action as [a|], query as [q|]; simpl in H;
      try destruct (jsstring_eqb a (str "quiz")); simpl in H;
      simplify_eq; done.
  - enabled H. simplify_eq. done.
  - destruct (pending w !! i) as [p|] eqn:E; [|done].
    pose proof (filter_isAsk_delete _ _ _ E) as Hd.
    destruct p as [|[|answer]], r as [[|res]|]; simpl in H; try done;
      [| destruct (ok res) | |]; simplify_eq; unfold_chat;
      rewrite ?filter_isAsk_snoc; simpl;
      (split; [destruct (loading w); simpl in *; lia
              |first [done | intros _; by destruct (delete i (pending w))]]).
Qed.

Lemma reachable_flagsFollowPending w : reachable w -> flagsFollowPending w.
Proof.
  induction 1 as [|w e w' qs _ IH Hstep]; [by split|].
  by eapply step_flagsFollowPending.
Qed.

Lemma run_reachable_chat es : forall w w' qs,
  reachable w -> run w es = Some (w', qs) -> reachable w'.
Proof.
  induction es as [|e es IH]; simpl; intros w w' qs Hw H.
  - by simplify_eq.
  - destruct (step w e) as [[w1 qs1]|] eqn:E; [|done].
    destruct (run w1 es) as [[w2 qs2]|] eqn:E2; [|done]. simplify_eq.
    eapply IH; [|exact E2]. by eapply reachable_step.
Qed.

Lemma chatAfter_reachable es : reachable (chatAfter es).
Proof.
  unfold chatAfter. destruct (run initialWidget es) as [[w qs]|] eqn:E;
    [|constructor].
  eapply run_reachable_chat; [constructor|exact E].
Qed.

(** In the first widget at most one [/api/ask] request is in flight, the
    loading flag is set exactly while one is, so that a further question is
    sent only after the response; and the typing indicator is shown only
    while a response or the delayed reply is still to come. *)
Theorem chat_one_request_in_flight (w : Widget) (Hreach : reachable w) :
  (length (List.filter isAsk (pending w)) <= 1)%nat
  /\ (loading w = true <-> exists p, p ∈ pending w /\ isAsk p = true)
  /\ (isTyping w = true -> pending w <> [])
  /\ (forall w' qs,
        step w SendMessage = Some (w', qs) -> qs <> [] ->
        loading w = false /\ qs = [trim (input w)]
        /\ List.filter isAsk (pending w) = []).
Proof.
  destruct (reachable_flagsFollowPending w Hreach) as [Hc Ht].
  split; [rewrite Hc; destruct (loading w); lia|]. split; [|split; [done|]].
  - split.
    + intros Hl. rewrite Hl in Hc.
      destruct (List.filter isAsk (pending w)) as [|p ps] eqn:Hf; [done|].
      exists p. assert (p ∈ List.filter isAsk (pending w)) as Hin
        by (rewrite Hf; constructor).
      apply list_elem_of_In, filter_In in Hin as [Hin Hp].
      split; [by apply list_elem_of_In|done].
    + intros (p & Hin & Hp). destruct (loading w); [done|].
      assert (p ∈ List.filter isAsk (pending w)) as Hf.
      { apply list_elem_of_In, filter_In. split; [|done].
        by apply list_elem_of_In. }
      destruct (List.filter isAsk (pending w)); [|done].
      by apply elem_of_nil in Hf.
  - intros w' qs Hs Hne. simpl in Hs. enabled Hs.
    unfold sendMessage in Hs.
    destruct (emptyString (trim (input w))); simpl in Hs; [by simplify_eq|].
    destruct (loading w); simpl in Hs; simplify_eq; try done.
    split; [done|]. split; [done|].
    by destruct (List.filter isAsk (pending w)).
Qed.

(** After a question is answered, while the reply is delayed. *)
Lemma chat_one_request_in_flight_witness :
  isTyping (chatAfter replyDue) = true
  /\ loading (chatAfter replyDue) = false
  /\ pending (chatAfter replyDue) <> [].
Proof.
  split; [reflexivity|]. split; [reflexivity|].
  exact (proj1 (proj2 (proj2 (chat_one_request_in_flight
                                (chatAfter replyDue)
                                (chatAfter_reachable _)))) eq_refl).
Defined.

(** The transcript of the first widget is never empty and always starts
    with the greeting: a question, a reply or an error is appended behind
    it, and [clearChat] puts the greeting alone back. *)
Theorem chat_transcript_starts_with_greeting (w : Widget)
    (Hreach : reachable w) :
  exists ms,
    messages w = {| type := Assessment.bot; text := TGreeting |} :: ms.
Proof.
  induction Hreach as [|w e w' qs _ [ms IH] Hstep]; [by exists []|].
  destruct e; simpl in Hstep.
  - simplify_eq. by exists ms.
  - enabled Hstep. simplify_eq. by exists ms.
  - enabled Hstep. unfold sendMessage in Hstep.
    destruct (emptyString (trim (input w)) || loading w); simplify_eq;
      [by exists ms|].
    unfold_chat. rewrite IH. by eexists.
  - enabled Hstep. simplify_eq. by exists [].
  - enabled Hstep. destruct (quickActions !! i) as [[query action]|]; [|done].
    unfold handleQuickAction in Hstep.
    destruct action as [a|], query as [q|]; simpl in Hstep;
      try destruct (jsstring_eqb a (str "quiz")); simpl in Hstep;
      simplify_eq; by exists ms.
  - enabled Hstep. simplify_eq. by exists ms.
  - destruct (pending w !! i) as [p|]; [|done].
    destruct p as [|[|answer]], r as [[|res]|]; simpl in Hstep; try done;
      [| destruct (ok res) | |]; simplify_eq; unfold_chat;
      rewrite ?IH; by eexists.
Qed.

(** While the reply is delayed the transcript is the greeting and the
    question. *)
Lemma chat_transcript_starts_with_greeting_witness :
  exists ms,
    messages (chatAfter replyDue)
    = {| type := Assessment.bot; text := TGreeting |} :: ms.
Proof.
  exact (chat_transcript_starts_with_greeting (chatAfter replyDue)
           (chatAfter_reachable _)).
Defined.

End ChatWidgetFacts.

(** ** More facts about the modal quiz *)

Module QuizInvariantFacts.
Import Quiz QuizInvariants QuizFacts.

Lemma submitAnswer_resume_cases sid o q :
  submitAnswer_resume sid o q
  = (await (PResults sid) q, [Fetch (GetResults sid)])
  \/ (exists next_question num,
        submitAnswer_resume sid o q
        = ({| step := step q; formData := formData q;
              quizData := quizData q; currentQuestion := next_question;
              selectedAnswer := None; questionNum := num;
              results := results q; loading := false;
              sessionId := sessionId q; pending := pending q |}, []))
  \/ exists e,
       submitAnswer_resume sid o q
       = (setLoading false q, [Alert (SubmitError e)]).
Proof.
  unfold submitAnswer_resume, submitAnswer_try.
  repeat case_match; simplify_eq;
    first [by left
          | right; left; by eexists _, _
          | right; right; by eexists ].
Qed.

(** [sessionBound] looks at six fields only. *)
Lemma sessionBound_ext q q' :
  step q' = step q -> sessionId q' = sessionId q ->
  quizData q' = quizData q -> selectedAnswer q' = selectedAnswer q ->
  currentQuestion q' = currentQuestion q -> pending q' = pending q ->
  sessionBound q -> sessionBound q'.
Proof.
  unfold sessionBound, optionCount. by intros -> -> -> -> -> ->.
Qed.

(** The continuation that runs is taken off the list. *)
Lemma sessionBound_taken q p :
  pending q = [p] -> sessionBound q -> sessionBound (setPending [] q).
Proof.
  unfold sessionBound, optionCount. simpl. intros Hp (H1 & H2 & H3 & _).
  done.
Qed.

Lemma handle_sessionBound q e q' fx :
  handle q e = Some (q', fx) ->
  oneInFlight q -> sessionBound q -> sessionBound q'.
Proof.
  intros H Hone Hb. destruct e; simpl in H.
  - destruct (step q) eqn:Hst; simplify_eq.
    by apply (sessionBound_ext q).
  - destruct (step q) eqn:Hst; [|done..].
    destruct (loading q) eqn:Hl; [done|]. unfold startQuiz in H.
    simplify_eq.
    destruct Hone as [[Hp _]|(p & _ & ?)]; [|congruence].
    destruct Hb as (Hsel & Hsid & Hopt & _).
    unfold sessionBound, optionCount in *. simpl. by rewrite Hp.
  - destruct (quizShown q) eqn:Hshown; [|done].
    destruct (index <? optionCount q)%nat eqn:Hi; simpl in H; [|done].
    simplify_eq. unfold quizShown in Hshown.
    destruct (step q) eqn:Hst; [done| |done].
    apply Nat.ltb_lt in Hi. destruct Hb as (Hsel & Hsid & Hopt & Hpend).
    unfold sessionBound, optionCount in *. simpl. rewrite Hst in *.
    repeat split; [done|by auto| |done]. by intros a [= <-].
  - destruct (quizShown q) eqn:Hshown; [|done].
    destruct (selectedAnswer q) as [a|] eqn:Ha; [|done].
    destruct (loading q) eqn:Hl; [done|]. simpl in H.
    unfold submitAnswer in H. rewrite Ha in H. simplify_eq.
    unfold quizShown in Hshown.
    destruct (step q) eqn:Hst; [done| |done].
    destruct Hone as [[Hp _]|(p & _ & ?)]; [|congruence].
    destruct Hb as (Hsel & Hsid & Hopt & _).
    unfold sessionBound, optionCount in *. simpl. rewrite Hp, Hst, Ha in *.
    simpl. repeat split; by auto.
  - destruct (pending q !! i) as [p|] eqn:E; [|done].
    injection H as H.
    destruct Hone as [[Hp Hl]|(p0 & Hp & Hl)]; rewrite Hp in E, H; [done|].
    destruct i; [|done]. simpl in E, H. simplify_eq.
    pose proof (sessionBound_taken q p Hp Hb) as Hb0.
    destruct Hb as (_ & _ & _ & Hpend). rewrite Hp in Hpend.
    set (q0 := setPending [] q) in *.
    destruct p as [|sid|sid]; simpl in H.
    + destruct (startQuiz_resume_cases o q0) as [[data Hr]|[a Hr]];
        rewrite Hr in H; simplify_eq.
      * destruct Hb0 as (Hsel & _). specialize (Hsel Hpend).
        unfold sessionBound, optionCount. simpl in *. rewrite Hsel.
        repeat split; done.
      * by apply (sessionBound_ext q0).
    + destruct Hpend as [Hst ->].
      destruct (submitAnswer_resume_cases (sessionId q) o q0)
        as [Hr|[(nq & num & Hr)|[err Hr]]]; rewrite Hr in H; simplify_eq.
      * destruct Hb0 as (Hsel & Hsid & Hopt & _).
        unfold sessionBound, optionCount in *. simpl in *.
        repeat split; by auto.
      * destruct Hb0 as (Hsel & Hsid & Hopt & _).
        unfold sessionBound, optionCount in *. simpl in *.
        repeat split; by auto.
      * by apply (sessionBound_ext q0).
    + destruct Hpend as [Hst ->].
      destruct (fetchResults_resume_cases o q0) as [[data Hr]|[err Hr]];
        rewrite Hr in H; simplify_eq.
      * destruct Hb0 as (Hsel & Hsid & Hopt & _).
        unfold sessionBound, optionCount in *. simpl in *.
        rewrite Hst in Hsid. repeat split; by auto.
      * by apply (sessionBound_ext q0).
Qed.

Lemma reachable_sessionBound q : reachable q -> sessionBound q.
Proof.
  induction 1 as [|q e q' fx Hq IH Hh].
  - by repeat split.
  - eapply handle_sessionBound; [exact Hh| |exact IH].
    by apply reachable_oneInFlight.
Qed.

Lemma fetchResults_resume_shown o q :
  (step (fetchResults_resume o q).1 = step q
   /\ results (fetchResults_resume o q).1 = results q)
  \/ resultsGuard (fetchResults_resume o q).1 = true.
Proof.
  unfold fetchResults_resume, fetchResults_try.
  destruct o as [|r]; [by left|].
  destruct (negb (ok r)); [destruct (text r); by left|].
  destruct (body r) as [data|]; [|by left].
  destruct (get (Some data) (str "success")) as [success|] eqn:Hs;
    [|by left].
  destruct (truthy success) eqn:Ht; [|by left].
  destruct (truthy (default None (get (Some data) (str "score_data"))))
    eqn:Hd; [|by left].
  right. unfold resultsGuard, setLoading. cbn [fst step results andb].
  rewrite Hd.
  destruct data; simpl in *; simplify_eq; done.
Qed.

Lemma resultsKept_ext q q' :
  step q' = step q -> results q' = results q ->
  resultsKept q -> resultsKept q'.
Proof. unfold resultsKept, resultsGuard. by intros -> ->. Qed.

Lemma handle_resultsKept q e q' fx :
  handle q e = Some (q', fx) -> resultsKept q -> resultsKept q'.
Proof.
  intros H Hk. destruct e; simpl in H.
  - destruct (step q) eqn:Hst; simplify_eq. by apply (resultsKept_ext q).
  - destruct (step q) eqn:Hst; [|done..].
    destruct (loading q); [done|]. unfold startQuiz in H. simplify_eq.
    by apply (resultsKept_ext q).
  - destruct (quizShown q && (index <? optionCount q)%nat); simplify_eq.
    by apply (resultsKept_ext q).
  - destruct (quizShown q); [|done].
    destruct (selectedAnswer q) eqn:Ha; [|done].
    destruct (loading q); [done|]. simpl in H. unfold submitAnswer in H.
    rewrite Ha in H. simplify_eq. by apply (resultsKept_ext q).
  - destruct (pending q !! i) as [p|]; [|done]. injection H as H.
    set (q0 := setPending (delete i (pending q)) q) in *.
    assert (resultsKept q0) as Hk0 by exact Hk.
    destruct p as [|sid|sid]; simpl in H.
    + destruct (startQuiz_resume_cases o q0) as [[data Hr]|[a Hr]];
        rewrite Hr in H; simplify_eq; [done|].
      by apply (resultsKept_ext q).
    + destruct (submitAnswer_resume_cases sid o q0)
        as [Hr|[(nq & num & Hr)|[err Hr]]]; rewrite Hr in H; simplify_eq;
        by apply (resultsKept_ext q).
    + destruct (fetchResults_resume_shown o q0) as [[Hs Hr]|Hr];
        rewrite H in *; cbn [fst] in *; [|by intros _].
      by apply (resultsKept_ext q0).
Qed.

Lemma reachable_resultsKept q : reachable q -> resultsKept q.
Proof.
  induction 1 as [|q e q' fx Hq IH Hh]; [done|].
  by eapply handle_resultsKept.
Qed.

(** Every request of the modal after the first carries the session of the
    start response: from a state the modal can be in, an answer request
    posts the selected answer, which is the index of an option rendered for
    the current question, with the question number shown, and it and the
    results request carry the [sessionId] of the state, which is the
    [session_id] of the start response kept in [quizData]; a start request
    is sent from the setup step only and posts the form. *)
Theorem quiz_requests_carry_session (q q' : PsychometricQuiz) (e : Event)
    (fx : list Effect) (r : Request)
    (Hreach : reachable q) (Hstep : handle q e = Some (q', fx))
    (Hsent : Fetch r ∈ fx) :
  match r with
  | PostStart body => e = ClickStart /\ step q = Setup /\ body = formData q
  | PostAnswer a num sid =>
      e = ClickSubmit /\ step q = InQuiz
      /\ selectedAnswer q = Some a /\ (a < optionCount q)%nat
      /\ num = questionNum q /\ sid = sessionId q
      /\ sid = default None (get (quizData q) (str "session_id"))
  | GetResults sid =>
      step q = InQuiz /\ sid = sessionId q
      /\ sid = default None (get (quizData q) (str "session_id"))
  end.
Proof.
  pose proof (reachable_sessionBound q Hreach) as (Hsel & Hsid & Hopt & Hp).
  pose proof (reachable_oneInFlight q Hreach) as Hone.
  destruct e; simpl in Hstep.
  - destruct (step q); simplify_eq; by apply elem_of_nil in Hsent.
  - destruct (step q) eqn:Hst; [|done..]. destruct (loading q); [done|].
    unfold startQuiz in Hstep. simplify_eq.
    apply list_elem_of_singleton in Hsent. by simplify_eq.
  - destruct (quizShown q && (index <? optionCount q)%nat); simplify_eq.
    by apply elem_of_nil in Hsent.
  - destruct (quizShown q) eqn:Hshown; [|done].
    unfold quizShown in Hshown. destruct (step q) eqn:Hst; try done.
    destruct (selectedAnswer q) as [a|] eqn:Ha; [|done].
    destruct (loading q); [done|]. simpl in Hstep.
    unfold submitAnswer in Hstep.
    rewrite Ha in Hstep. simplify_eq.
    apply list_elem_of_singleton in Hsent. simplify_eq.
    repeat split; auto.
  - destruct (pending q !! i) as [p|] eqn:E; [|done]. injection Hstep as H.
    destruct Hone as [[Hpd Hl]|(p0 & Hpd & Hl)]; rewrite Hpd in E, H, Hp;
      [done|].
    destruct i; [|done]. simpl in E, H. simplify_eq.
    set (q0 := setPending [] q) in *.
    destruct p as [|sid|sid]; simpl in H.
    + destruct (startQuiz_resume_cases o q0) as [[data Hr]|[a Hr]];
        rewrite Hr in H; simplify_eq.
      * by apply elem_of_nil in Hsent.
      * apply list_elem_of_singleton in Hsent. done.
    + destruct Hp as [Hst ->].
      destruct (submitAnswer_resume_cases (sessionId q) o q0)
        as [Hr|[(nq & num & Hr)|[err Hr]]]; rewrite Hr in H; simplify_eq.
      * apply list_elem_of_singleton in Hsent. simplify_eq.
        repeat split; auto. apply Hsid. by rewrite Hst.
      * by apply elem_of_nil in Hsent.
      * apply list_elem_of_singleton in Hsent. done.
    + destruct (fetchResults_resume_cases o q0) as [[data Hr]|[err Hr]];
        rewrite Hr in H; simplify_eq.
      * by apply elem_of_nil in Hsent.
      * apply list_elem_of_singleton in Hsent. done.
Qed.

(** The third option is chosen and submitted: the request carries it, the
    question number and the session of the start response. *)
Lemma quiz_requests_carry_session_witness :
  selectedAnswer (quizAfter answerChosen) = Some 2%nat
  /\ (2 < optionCount (quizAfter answerChosen))%nat
  /\ sessionId (quizAfter answerChosen)
     = default None (get (quizData (quizAfter answerChosen))
                       (str "session_id")).
Proof.
  pose proof (quiz_requests_carry_session
                (quizAfter answerChosen) (quizAfter sampleQuizRun) ClickSubmit
                [Fetch (PostAnswer 2 (questionNum (quizAfter answerChosen))
                          (sessionId (quizAfter answerChosen)))]
                (PostAnswer 2 (questionNum (quizAfter answerChosen))
                   (sessionId (quizAfter answerChosen)))
                (quizAfter_reachable _)
                ltac:(vm_compute; reflexivity)
                ltac:(apply list_elem_of_singleton; reflexivity))
    as (_ & _ & Ha & Hlt & _ & _ & Hs).
  split; [exact Ha|]. split; [exact Hlt|exact Hs].
Defined.

(** The results step is final: it is entered only with results that pass
    the guard of the results view (line 386: [results] and its [score_data]
    are truthy); no request is in flight and the loading flag is off; and no
    form change, start, option click, submission or response is enabled any
    more, so that only closing the modal is left.  Whether the body of the
    view renders depends on the further fields of the results, which the
    component does not check. *)
Theorem quiz_results_step_final (q : PsychometricQuiz)
    (Hreach : reachable q) (Hres : step q = Results) :
  resultsGuard q = true /\ loading q = false /\ pending q = []
  /\ forall e, handle q e = None.
Proof.
  pose proof (reachable_sessionBound q Hreach) as (_ & _ & _ & Hp).
  pose proof (reachable_oneInFlight q Hreach) as Hone.
  assert (pending q = [] /\ loading q = false) as [Hpd Hl].
  { destruct Hone as [?|(p & Hpd & _)]; [done|]. rewrite Hpd, Hres in Hp.
    destruct p as [|sid|sid]; [done|by destruct Hp..]. }
  split; [by apply reachable_resultsKept|]. split; [done|]. split; [done|].
  intros e. destruct e; simpl; unfold quizShown; rewrite ?Hres, ?Hpd; done.
Qed.

(** The sample run of the modal ends in the results step, with the guard
    of the results view passed. *)
Lemma quiz_results_step_final_witness :
  step (quizAfter sampleResultsRun) = Results
  /\ resultsGuard (quizAfter sampleResultsRun) = true
  /\ handle (quizAfter sampleResultsRun) ClickSubmit = None.
Proof.
  pose proof (quiz_results_step_final (quizAfter sampleResultsRun)
                (quizAfter_reachable _) eq_refl) as (Hs & _ & _ & Hh).
  split; [reflexivity|]. split; [exact Hs|apply Hh].
Defined.

(** The modal never goes back a step, and once the quiz has started the
    session id and the data of the start response stay as they are. *)
Theorem quiz_steps_forward (q q' : PsychometricQuiz) (e : Event)
    (fx : list Effect)
    (Hreach : reachable q) (Hstep : handle q e = Some (q', fx)) :
  (stepRank (step q) <= stepRank (step q'))%nat
  /\ (step q <> Setup ->
      sessionId q' = sessionId q /\ quizData q' = quizData q).
Proof.
  pose proof (reachable_sessionBound q Hreach) as (_ & _ & _ & Hp).
  pose proof (reachable_oneInFlight q Hreach) as Hone.
  destruct e; simpl in Hstep.
  - destruct (step q) eqn:Hst; simplify_eq. simpl. by rewrite Hst.
  - destruct (step q) eqn:Hst; [|done..]. destruct (loading q); [done|].
    unfold startQuiz in Hstep. simplify_eq. simpl. by rewrite Hst.
  - destruct (quizShown q && (index <? optionCount q)%nat); by simplify_eq.
  - destruct (quizShown q); [|done].
    destruct (selectedAnswer q) as [a|] eqn:Ha; [|done].
    destruct (loading q); [done|]. simpl in Hstep.
    unfold submitAnswer in Hstep. rewrite Ha in Hstep. by simplify_eq.
  - destruct (pending q !! i) as [p|] eqn:E; [|done]. injection Hstep as H.
    destruct Hone as [[Hpd Hl]|(p0 & Hpd & Hl)]; rewrite Hpd in E, H, Hp;
      [done|].
    destruct i; [|done]. simpl in E, H. simplify_eq.
    set (q0 := setPending [] q) in *.
    destruct p as [|sid|sid]; simpl in H.
    + destruct (startQuiz_resume_cases o q0) as [[data Hr]|[a Hr]];
        rewrite Hr in H; simplify_eq; simpl; rewrite Hp; simpl;
        (split; [lia|done]).
    + destruct (submitAnswer_resume_cases sid o q0)
        as [Hr|[(nq & num & Hr)|[err Hr]]]; rewrite Hr in H; by simplify_eq.
    + destruct Hp as [Hst _].
      destruct (fetchResults_resume_cases o q0) as [[data Hr]|[err Hr]];
        rewrite Hr in H; simplify_eq; simpl; rewrite ?Hst; simpl;
        (split; [lia|done]).
Qed.

(** The start response arrives: the modal goes from the setup to the
    quiz. *)
Lemma quiz_steps_forward_witness :
  (stepRank (step (quizAfter [ClickStart]))
   <= stepRank (step (quizAfter [ClickStart;
                                 Resume 0 (okResponse sampleStartBody)])))%nat.
Proof.
  exact (proj1 (quiz_steps_forward
                  (quizAfter [ClickStart])
                  (quizAfter [ClickStart;
                              Resume 0 (okResponse sampleStartBody)])
                  (Resume 0 (okResponse sampleStartBody)) []
                  (quizAfter_reachable _)
                  ltac:(vm_compute; reflexivity))).
Defined.


End QuizInvariantFacts.

(** ** One question at a time *)



